(** * chief-keeper: the block callback, the hat and eta monitors and the
      local database, embedded from [chief_keeper/chief_keeper.py] and
      [chief_keeper/database.py].

    The keeper is a Python object holding a TinyDB handle, a web3 handle and
    an error counter. Its methods read the node, mutate the database, log and
    hand transactions to pymaker. They are embedded here as computations in a
    state-and-exception monad over an explicit [World]; a raised exception
    keeps every mutation made before it, as in Python. *)

From stdpp Require Import base option strings list gmap.
From Stdlib Require Import ZArith.

Local Open Scope Z_scope.

(** ** Exceptions and results *)

(** The Python exceptions that the embedded code can meet. [RPCError] stands
    for whatever a failed call to the node raises, [OSError] for a failure of
    the file system under TinyDB. *)
Inductive exn : Type :=
  | RPCError
  | OSError
  | TypeError
  | KeyError
  | AttributeError.

Inductive result (A : Type) : Type :=
  | Ok (a : A)
  | Raise (e : exn).
Arguments Ok {A} a.
Arguments Raise {A} e.

(** ** The documents of the database

    [db_<network>.json] holds the default TinyDB table: document 1 is
    [{'last_block_checked': n}], document 2 is
    [{'hat': {'address': a, 'eta': e, 'done': d}}]. The code reads the inner
    dictionary with [dict.get], so a key may be absent: every key is an
    [option]. *)
Record Hat : Type := mkHat {
  address : option string;
  eta : option Z;
  done : option bool
}.

Record Doc : Type := mkDoc {
  last_block_checked : option Z;
  hat : option Hat
}.

(** [chief_keeper.spell.zero_address]; the module is not part of the sources
    at hand, the constant is the all-zero Ethereum address. *)
Definition zero_address : string :=
  "0x0000000000000000000000000000000000000000".

(** ** The TinyDB table

    TinyDB is a library the keeper calls; what the keeper relies on is
    modelled: a table is a finite map from integer document ids to
    documents. *)
Module TinyDB.

(** [Table._get_next_id]: 1 on an empty table, the largest id plus one
    otherwise. *)
Definition next_id (t : gmap Z Doc) : Z :=
  match map_to_list t with
  | [] => 1
  | (k, _) :: rest => foldr (fun kd acc => Z.max kd.1 acc) k rest + 1
  end.

(** [db.insert(doc)] *)
Definition insert (d : Doc) (t : gmap Z Doc) : gmap Z Doc :=
  <[next_id t := d]> t.

(** [db.get(doc_id=k)]: the document, or [None]. *)
Definition get (k : Z) (t : gmap Z Doc) : option Doc := t !! k.

(** [dict.update] of a document with the given fields: a key of [fields]
    replaces the document's, the other keys stay. *)
Definition merge_fields (fields d : Doc) : Doc :=
  {| last_block_checked :=
       match last_block_checked fields with
       | Some n => Some n
       | None => last_block_checked d
       end;
     hat :=
       match hat fields with
       | Some h => Some h
       | None => hat d
       end |}.

(** [db.update(fields, doc_ids=[k])]: raises [KeyError] when the table has
    no document [k]. *)
Definition update (fields : Doc) (k : Z) (t : gmap Z Doc)
  : result (gmap Z Doc) :=
  match t !! k with
  | Some d => Ok (<[k := merge_fields fields d]> t)
  | None => Raise KeyError
  end.

End TinyDB.

(** ** The node and the transaction submitter *)

Record Block : Type := mkBlock { timestamp : Z }.

Record Receipt : Type := mkReceipt { successful : bool }.

(** What the keeper reads from the node during one callback. Every read is a
    remote call and may raise. [spell_eta] is [DSSSpell.eta()], a datetime
    built from the spell's [uint256 eta]; it is kept as the number of seconds
    since the epoch. *)
Record Chain : Type := mkChain {
  blockNumber : result Z;
  getBlock : Z -> result (option Block);
  get_hat : result string;
  is_contract_at : string -> result bool;
  spell_eta : string -> result N;
  spell_done : string -> result bool
}.

Inductive Tx : Type :=
  | Schedule (spell : string)
  | Cast (spell : string).

(** What the file system answers to [SimpleDatabase.create]:
    [os.path.isfile], [os.access(_, os.R_OK)], and what [TinyDB(filepath)]
    returns or raises. *)
Record FileSystem : Type := mkFileSystem {
  isfile : bool;
  access_R_OK : bool;
  tinydb_open : result (gmap Z Doc)
}.

(** ** Logging *)

Inductive Message : Type :=
  | CheckingHat (block_number : Z)
  | NotAContract (h : Hat)
  | AlreadyScheduled (h : Hat) (spell_eta : Z)
  | Scheduling (h : Hat)
  | EtaBlockIsNone (block_number : Z)
  | CheckingScheduled (block_number : Z)
  | Casting (spell : string)
  | InitHat (a : string) (e : Z) (d : bool).

Inductive Event : Type :=
  | LogInfo (m : Message)
  | LogWarning (m : Message)
  | Stdout (m : Message).

(** ** The world of the keeper *)

Record World : Type := mkWorld {
  chain : Chain;
  fs : FileSystem;
  db : option (gmap Z Doc);
  txs : list Tx;
  log : list Event;
  errors : Z;
  max_errors : Z;
  terminated : bool
}.

Definition set_chain (c : Chain) (w : World) : World :=
  mkWorld c (fs w) (db w) (txs w) (log w) (errors w) (max_errors w)
          (terminated w).
Definition set_db (t : gmap Z Doc) (w : World) : World :=
  mkWorld (chain w) (fs w) (Some t) (txs w) (log w) (errors w) (max_errors w)
          (terminated w).
Definition add_tx (t : Tx) (w : World) : World :=
  mkWorld (chain w) (fs w) (db w) (txs w ++ [t]) (log w) (errors w)
          (max_errors w) (terminated w).
Definition add_event (e : Event) (w : World) : World :=
  mkWorld (chain w) (fs w) (db w) (txs w) (log w ++ [e]) (errors w)
          (max_errors w) (terminated w).
Definition set_terminated (w : World) : World :=
  mkWorld (chain w) (fs w) (db w) (txs w) (log w) (errors w) (max_errors w)
          true.

(** ** The monad *)

Definition M (A : Type) : Type := World -> result A * World.

Definition ret {A} (a : A) : M A := fun w => (Ok a, w).

Definition raise {A} (e : exn) : M A := fun w => (Raise e, w).

Definition bind {A B} (m : M A) (k : A -> M B) : M B :=
  fun w =>
    match m w with
    | (Ok a, w') => k a w'
    | (Raise e, w') => (Raise e, w')
    end.

Notation "'let*' x ':=' m 'in' k" := (bind m (fun x => k))
  (at level 10, x name, m at level 100, k at level 200).
Notation "m ';;' k" := (bind m (fun _ => k))
  (at level 100, k at level 200, right associativity).

(** A result computed outside the monad, raised or returned. *)
Definition lift {A} (r : result A) : M A := fun w => (r, w).

(** A read of the node. *)
Definition read {A} (f : Chain -> result A) : M A :=
  fun w => (f (chain w), w).

Definition info (m : Message) : M unit := fun w => (Ok tt, add_event (LogInfo m) w).
Definition warning (m : Message) : M unit :=
  fun w => (Ok tt, add_event (LogWarning m) w).
Definition print (m : Message) : M unit :=
  fun w => (Ok tt, add_event (Stdout m) w).

(** ** The keeper

    [transact_on] is pymaker's [Transact.transact] seen from the keeper: the
    submitted call acts on the chain and a receipt, [None] or an exception
    comes back. *)
Section Keeper.

Variable transact_on : Tx -> Chain -> result (option Receipt) * Chain.

(** [call.transact(gas_price=...)]; the submission is recorded in [txs]
    before its outcome is known. *)
Definition transact (t : Tx) : M (option Receipt) :=
  fun w =>
    let w1 := add_tx t w in
    let '(r, c) := transact_on t (chain w1) in
    (r, set_chain c w1).

(** *** database.py *)

(** [self.db], which is [None] until [create] has run. *)
Definition the_db : M (gmap Z Doc) :=
  fun w =>
    match db w with
    | Some t => (Ok t, w)
    | None => (Raise AttributeError, w)
    end.

Definition put_db (t : gmap Z Doc) : M unit := fun w => (Ok tt, set_db t w).

(** [self.db.get(doc_id=2)["hat"]] *)
Definition db_hat : M Hat :=
  let* t := the_db in
  match TinyDB.get 2 t with
  | None => raise TypeError
  | Some d =>
      match hat d with
      | None => raise KeyError
      | Some h => ret h
      end
  end.

(** [self.db.update(fields, doc_ids=[k])] *)
Definition db_update (fields : Doc) (k : Z) : M unit :=
  let* t := the_db in
  let* t' := lift (TinyDB.update fields k t) in
  put_db t'.

(** [self.db.insert(d)] *)
Definition db_insert (d : Doc) : M unit :=
  let* t := the_db in
  put_db (TinyDB.insert d t).

Definition hat_fields (h : Hat) : Doc :=
  {| last_block_checked := None; hat := Some h |}.

Definition block_fields (n : Z) : Doc :=
  {| last_block_checked := Some n; hat := None |}.

(** [get_eta_in_unix(spell)]: [int(spell.eta().replace(tzinfo=utc).timestamp())] *)
Definition get_eta_in_unix (spell : string) : M Z :=
  let* e := read (fun c => spell_eta c spell) in
  ret (Z.of_N e).

Definition create : M string :=
  let* f := (fun w => (Ok (fs w), w)) in
  if isfile f && access_R_OK f then
    let result := "Simple database exists and is readable"%string in
    let* t := lift (tinydb_open f) in
    put_db t ;;
    ret result
  else
    let result :=
      "Either file is missing or is not readable, creating simple database"%string in
    let* t := lift (tinydb_open f) in
    put_db t ;;
    let* block_number := read blockNumber in
    db_insert (block_fields block_number) ;;
    let* hat := read get_hat in
    let* ed :=
      (if negb (String.eqb hat zero_address) then
         let* eta := get_eta_in_unix hat in
         let* done := read (fun c => spell_done c hat) in
         ret (eta, done)
       else ret (0, true)) in
    print (InitHat hat ed.1 ed.2) ;;
    db_insert (hat_fields (mkHat (Some hat) (Some ed.1) (Some ed.2))) ;;
    ret result.

Definition update_db_hat (current_block_number : Z) : M unit :=
  let* current_hat := read get_hat in
  let* old_hat := db_hat in
  (if negb (bool_decide (address old_hat = Some current_hat)) then
     let* eta := get_eta_in_unix current_hat in
     let* done := read (fun c => spell_done c current_hat) in
     db_update (hat_fields (mkHat (Some current_hat) (Some eta) (Some done))) 2
   else ret tt) ;;
  db_update (block_fields current_block_number) 1.

Definition update_db_hat_eat (eta' : Z) : M unit :=
  let* hat := db_hat in
  db_update (hat_fields (mkHat (address hat) (Some eta') (done hat))) 2.

Definition update_db_hat_done (done' : bool) : M unit :=
  let* hat := db_hat in
  db_update (hat_fields (mkHat (address hat) (eta hat) (Some done'))) 2.

(** *** chief_keeper.py *)

(** [hat.get("address", zero_address)] *)
Definition get_address (h : Hat) : string := default zero_address (address h).

(** [hat.get("eta", 0)] *)
Definition get_eta (h : Hat) : Z := default 0 (eta h).

(** The truth value of [hat.get("done")]. *)
Definition done_truthy (h : Hat) : bool := default false (done h).

(** [hat.get("done") is False] *)
Definition done_is_False (h : Hat) : bool :=
  match done h with
  | Some false => true
  | _ => false
  end.

Definition check_hat : M unit :=
  let* block_number := read blockNumber in
  info (CheckingHat block_number) ;;
  update_db_hat block_number ;;
  let* hat := db_hat in
  let hat_address := get_address hat in
  if String.eqb hat_address zero_address || done_truthy hat then ret tt
  else
    let* c := read (fun c => is_contract_at c hat_address) in
    if negb c then info (NotAContract hat)
    else
      if done_is_False hat && (get_eta hat =? 0) then
        let* spell_eta := get_eta_in_unix hat_address in
        if 0 <? spell_eta then
          info (AlreadyScheduled hat spell_eta) ;;
          update_db_hat_eat spell_eta
        else
          info (Scheduling hat) ;;
          transact (Schedule hat_address) ;;
          let* spell_eta := get_eta_in_unix hat_address in
          if 0 <? spell_eta then update_db_hat_eat spell_eta
          else ret tt
      else ret tt.

Definition check_eta : M unit :=
  let* hat := db_hat in
  let hat_address := get_address hat in
  let hat_eta := get_eta hat in
  if String.eqb hat_address zero_address || done_truthy hat
     || (hat_eta =? 0) then ret tt
  else
    let* block_number := read blockNumber in
    let* block := read (fun c => getBlock c block_number) in
    match block with
    | None => warning (EtaBlockIsNone block_number)
    | Some b =>
        let now := timestamp b in
        info (CheckingScheduled block_number) ;;
        if now <? hat_eta then ret tt
        else
          let* c := read (fun c => is_contract_at c hat_address) in
          let spell := if c then Some hat_address else None in
          match spell with
          | None => raise AttributeError
          | Some s =>
              info (Casting s) ;;
              let* receipt := transact (Cast s) in
              match receipt with
              | None => update_db_hat_done true
              | Some r =>
                  if successful r then update_db_hat_done true
                  else ret tt
              end
          end
    end.

(** [self.lifecycle.terminate()] *)
Definition terminate : M unit := fun w => (Ok tt, set_terminated w).

Definition process_block : M unit :=
  let* e := (fun w => (Ok (errors w), w)) in
  let* m := (fun w => (Ok (max_errors w), w)) in
  if m <=? e then terminate
  else
    check_hat ;;
    check_eta.

End Keeper.

(** ** The keeper and a node that moves

    The node is another process: between two calls of the keeper blocks are
    mined and other accounts schedule and cast. In the functions above the
    node changes only through the transactions of the keeper itself. The
    functions of this section are the same functions with the state of the
    node at every remote call written out: [node k] is the state in which
    the call at place [k] finds the node, or [None] when the node is where
    the last call or transaction left it. The places are counted in the
    order of the source text; in [create] and in the hat monitor alike the
    eta of a fresh record is read at place 2 and its done flag at place 3,
    and no transaction is submitted before. *)

Definition moved_to (o : option Chain) : M unit :=
  fun w =>
    match o with
    | Some c => (Ok tt, set_chain c w)
    | None => (Ok tt, w)
    end.

(** A node that stays where it is. *)
Definition still : nat -> option Chain := fun _ => None.

Section Moving.

Variable transact_on : Tx -> Chain -> result (option Receipt) * Chain.

Definition create_live (node : nat -> option Chain) : M string :=
  let* f := (fun w => (Ok (fs w), w)) in
  if isfile f && access_R_OK f then
    let result := "Simple database exists and is readable"%string in
    let* t := lift (tinydb_open f) in
    put_db t ;;
    ret result
  else
    let result :=
      "Either file is missing or is not readable, creating simple database"%string in
    let* t := lift (tinydb_open f) in
    put_db t ;;
    moved_to (node 0%nat) ;;
    let* block_number := read blockNumber in
    db_insert (block_fields block_number) ;;
    moved_to (node 1%nat) ;;
    let* hat := read get_hat in
    let* ed :=
      (if negb (String.eqb hat zero_address) then
         moved_to (node 2%nat) ;;
         let* eta := get_eta_in_unix hat in
         moved_to (node 3%nat) ;;
         let* done := read (fun c => spell_done c hat) in
         ret (eta, done)
       else ret (0, true)) in
    print (InitHat hat ed.1 ed.2) ;;
    db_insert (hat_fields (mkHat (Some hat) (Some ed.1) (Some ed.2))) ;;
    ret result.

(** Called by the hat monitor after its place 0: the places 1 to 3. *)
Definition update_db_hat_live (node : nat -> option Chain)
  (current_block_number : Z) : M unit :=
  moved_to (node 1%nat) ;;
  let* current_hat := read get_hat in
  let* old_hat := db_hat in
  (if negb (bool_decide (address old_hat = Some current_hat)) then
     moved_to (node 2%nat) ;;
     let* eta := get_eta_in_unix current_hat in
     moved_to (node 3%nat) ;;
     let* done := read (fun c => spell_done c current_hat) in
     db_update (hat_fields (mkHat (Some current_hat) (Some eta) (Some done))) 2
   else ret tt) ;;
  db_update (block_fields current_block_number) 1.

Definition check_hat_live (node : nat -> option Chain) : M unit :=
  moved_to (node 0%nat) ;;
  let* block_number := read blockNumber in
  info (CheckingHat block_number) ;;
  update_db_hat_live node block_number ;;
  let* hat := db_hat in
  let hat_address := get_address hat in
  if String.eqb hat_address zero_address || done_truthy hat then ret tt
  else
    moved_to (node 4%nat) ;;
    let* c := read (fun c => is_contract_at c hat_address) in
    if negb c then info (NotAContract hat)
    else
      if done_is_False hat && (get_eta hat =? 0) then
        moved_to (node 5%nat) ;;
        let* spell_eta := get_eta_in_unix hat_address in
        if 0 <? spell_eta then
          info (AlreadyScheduled hat spell_eta) ;;
          update_db_hat_eat spell_eta
        else
          info (Scheduling hat) ;;
          moved_to (node 6%nat) ;;
          transact transact_on (Schedule hat_address) ;;
          moved_to (node 7%nat) ;;
          let* spell_eta := get_eta_in_unix hat_address in
          if 0 <? spell_eta then update_db_hat_eat spell_eta
          else ret tt
      else ret tt.

Definition check_eta_live (node : nat -> option Chain) : M unit :=
  let* hat := db_hat in
  let hat_address := get_address hat in
  let hat_eta := get_eta hat in
  if String.eqb hat_address zero_address || done_truthy hat
     || (hat_eta =? 0) then ret tt
  else
    moved_to (node 0%nat) ;;
    let* block_number := read blockNumber in
    moved_to (node 1%nat) ;;
    let* block := read (fun c => getBlock c block_number) in
    match block with
    | None => warning (EtaBlockIsNone block_number)
    | Some b =>
        let now := timestamp b in
        info (CheckingScheduled block_number) ;;
        if now <? hat_eta then ret tt
        else
          moved_to (node 2%nat) ;;
          let* c := read (fun c => is_contract_at c hat_address) in
          let spell := if c then Some hat_address else None in
          match spell with
          | None => raise AttributeError
          | Some s =>
              info (Casting s) ;;
              moved_to (node 3%nat) ;;
              let* receipt := transact transact_on (Cast s) in
              match receipt with
              | None => update_db_hat_done true
              | Some r =>
                  if successful r then update_db_hat_done true
                  else ret tt
              end
          end
    end.

(** The hat monitor has the places 0 to 7, the eta monitor the places from
    8 on. *)
Definition process_block_live (node : nat -> option Chain) : M unit :=
  let* e := (fun w => (Ok (errors w), w)) in
  let* m := (fun w => (Ok (max_errors w), w)) in
  if m <=? e then terminate
  else
    check_hat_live node ;;
    check_eta_live (fun k => node (8 + k)%nat).

End Moving.

(** ** Observations and scenarios *)

(** The leader record of the store, when document 2 holds one. *)
Definition cached_hat (w : World) : option Hat :=
  match db w with
  | Some t =>
      match TinyDB.get 2 t with
      | Some d => hat d
      | None => None
      end
  | None => None
  end.

(** A node that answers every read, with the same answer for every
    address and block number. *)
Definition steady_chain (leader : string) (number now : Z) (code : bool)
  (e : N) (d : bool) : Chain :=
  {| blockNumber := Ok number;
     getBlock := fun _ => Ok (Some (mkBlock now));
     get_hat := Ok leader;
     is_contract_at := fun _ => Ok code;
     spell_eta := fun _ => Ok e;
     spell_done := fun _ => Ok d |}.

(** A submitter whose transactions are mined with a successful receipt and
    leave the answers of the node as they were. *)
Definition mined_submitter (t : Tx) (c : Chain)
  : result (option Receipt) * Chain :=
  (Ok (Some (mkReceipt true)), c).

Definition no_file : FileSystem :=
  {| isfile := false; access_R_OK := false; tinydb_open := Ok ∅ |}.

(** A keeper after startup: checkpoint [n] and leader record [h] in the
    store, nothing submitted or logged, no error counted, budget 100. *)
Definition running (c : Chain) (n : Z) (h : Hat) : World :=
  {| chain := c; fs := no_file;
     db := Some {[ 1 := block_fields n; 2 := hat_fields h ]};
     txs := []; log := []; errors := 0; max_errors := 100;
     terminated := false |}.

Definition spell_A : string := "0x00000000000000000000000000000000000000A1".
Definition spell_B : string := "0x00000000000000000000000000000000000000B2".

(** A keeper before startup, with no store on disk. *)
Definition fresh (c : Chain) : World :=
  {| chain := c; fs := no_file; db := None; txs := []; log := [];
     errors := 0; max_errors := 100; terminated := false |}.




(** A node that is down: every read raises. *)
Definition down_chain : Chain :=
  {| blockNumber := Raise RPCError;
     getBlock := fun _ => Raise RPCError;
     get_hat := Raise RPCError;
     is_contract_at := fun _ => Raise RPCError;
     spell_eta := fun _ => Raise RPCError;
     spell_done := fun _ => Raise RPCError |}.

(** A node that knows the number of the current block and returns no block
    for it. *)
Definition blockless_chain (leader : string) (number : Z) (e : N) : Chain :=
  {| blockNumber := Ok number;
     getBlock := fun _ => Ok None;
     get_hat := Ok leader;
     is_contract_at := fun _ => Ok true;
     spell_eta := fun _ => Ok e;
     spell_done := fun _ => Ok false |}.

(** Leader A cached as unscheduled while the node already has eta 500. *)
Definition race_world : World :=
  running (steady_chain spell_A 7 50 true 500 false) 6
          (mkHat (Some spell_A) (Some 0) (Some false)).

(** Leader A scheduled for 100, the current block stamped [now]. *)
Definition due_world (now : Z) : World :=
  running (steady_chain spell_A 7 now true 100 false) 6
          (mkHat (Some spell_A) (Some 100) (Some false)).

(** The same at timestamp 100, with no code left at A. *)
Definition codeless_world : World :=
  running (steady_chain spell_A 7 100 false 100 false) 6
          (mkHat (Some spell_A) (Some 100) (Some false)).

(** Leader A cast and marked done. *)
Definition done_world : World :=
  running (steady_chain spell_A 7 100 true 100 true) 6
          (mkHat (Some spell_A) (Some 100) (Some true)).

(** Leader A cached as unscheduled, the node reporting the new leader B,
    already scheduled for 1000. *)
Definition changed_world : World :=
  running (steady_chain spell_B 7 50 true 1000 false) 6
          (mkHat (Some spell_A) (Some 0) (Some false)).

Definition down_world : World :=
  running down_chain 6 (mkHat (Some spell_A) (Some 0) (Some false)).

Definition blockless_world : World :=
  running (blockless_chain spell_A 7 100) 6
          (mkHat (Some spell_A) (Some 100) (Some false)).

(** Startups: with leader A, unscheduled; with no leader yet; with leader A
    and a store file that cannot be read. *)
Definition boot_world : World :=
  fresh (steady_chain spell_A 7 50 true 0 false).

Definition null_boot_world : World :=
  fresh (steady_chain zero_address 7 50 false 0 false).


(** The address of the cached leader record. *)
Definition cached_address (w : World) : option string :=
  cached_hat w ≫= address.

(** ** Notions used in the statements *)

(** [m] leaves the observation [f] of the world as it found it, whether it
    returns or raises. *)
Definition keeps {A B} (f : World -> B) (m : M A) : Prop :=
  forall w, f (m w).2 = f w.

(** Observations that do not look at the log, the store, the submitted
    transactions, the node, or the lifecycle flag. *)
Definition log_blind {B} (f : World -> B) : Prop :=
  forall e w, f (add_event e w) = f w.
Definition db_blind {B} (f : World -> B) : Prop :=
  forall t w, f (set_db t w) = f w.
Definition tx_blind {B} (f : World -> B) : Prop :=
  forall t w, f (add_tx t w) = f w.
Definition chain_blind {B} (f : World -> B) : Prop :=
  forall c w, f (set_chain c w) = f w.
Definition stop_blind {B} (f : World -> B) : Prop :=
  forall w, f (set_terminated w) = f w.

(** From a world in [P], [m] returns [a] in a world in [Q a] or raises in a
    world in [E]. *)
Definition triple {A} (P : World -> Prop) (m : M A)
  (Q : A -> World -> Prop) (E : World -> Prop) : Prop :=
  forall w, P w ->
    match m w with
    | (Ok a, w') => Q a w'
    | (Raise _, w') => E w'
    end.

(** The invariant of the data model on one leader record. *)
Definition hat_inv (h : Hat) : Prop := eta h = Some 0 -> done h = Some false.

(** The record that a bootstrap stores while there is no leader. *)
Definition null_record : Hat :=
  mkHat (Some zero_address) (Some 0) (Some true).

(** What the code keeps of the invariant. *)
Definition record_inv (h : Hat) : Prop := hat_inv h \/ h = null_record.

(** Every leader record of the table, of the store, is in [P]. *)
Definition table_inv (P : Hat -> Prop) (t : gmap Z Doc) : Prop :=
  forall k d h, t !! k = Some d -> hat d = Some h -> P h.

Definition stored_inv (P : Hat -> Prop) (w : World) : Prop :=
  forall t, db w = Some t -> table_inv P t.

(** No action that the node reports unscheduled in the state [c] is
    reported done in the state [c']. *)
Definition calm (c c' : Chain) : Prop :=
  forall a d, spell_eta c a = Ok 0%N -> spell_done c' a = Ok d -> d = false.

(** The invariant on one state of the node: an action that is not scheduled
    is not reported done. *)
Definition chain_inv (c : Chain) : Prop := calm c c.

(** The same for a node that goes from the state [c] by [o2] to the state
    in which the eta is read, and from there by [o3] to the one in which
    the done flag is read. *)
Definition pair_calm (c : Chain) (o2 o3 : option Chain) : Prop :=
  calm (default c o2) (default (default c o2) o3).

(** The state in which the call at place [k] of [create] or of the hat
    monitor finds the node, [c0] being the state of the node before the
    run; [k] is at most 3. *)
Fixpoint state_at (node : nat -> option Chain) (c0 : Chain) (k : nat)
  : Chain :=
  match k with
  | O => default c0 (node O)
  | S k' => default (state_at node c0 k') (node (S k'))
  end.

(** The two reads of a fresh record are not torn: no action that the node
    reports unscheduled when the eta is read, at place 2, is reported done
    when the done flag is read, at place 3. With a node that does not move
    between the two this is the invariant of its state. *)
Definition untorn (c0 : Chain) (node : nat -> option Chain) : Prop :=
  calm (state_at node c0 2) (state_at node c0 3).

(** A world whose store satisfies what the code keeps of the invariant. *)
Definition consistent (w : World) : Prop := stored_inv record_inv w.

(** The guards of the eta monitor pass in [w] for the leader [a] with eta
    [T], the node reports a block with timestamp [now] and code at [a]. *)
Definition armed (w : World) (a : string) (T now : Z) : Prop :=
  exists h number,
    cached_hat w = Some h /\ address h = Some a /\ a <> zero_address /\
    done h = Some false /\ eta h = Some T /\ T <> 0 /\
    blockNumber (chain w) = Ok number /\
    getBlock (chain w) number = Ok (Some (mkBlock now)) /\
    is_contract_at (chain w) a = Ok true.

(** The worlds a keeper goes through: a bootstrap on an empty store, then
    monitor runs and block callbacks, and restarts on the store that the
    keeper left. The node is in any state at any call and between two
    runs, except that the two reads of a fresh record are not torn. *)
Inductive reachable
  (transact_on : Tx -> Chain -> result (option Receipt) * Chain)
  : World -> Prop :=
  | reach_bootstrap w node :
      isfile (fs w) && access_R_OK (fs w) = false ->
      tinydb_open (fs w) = Ok ∅ ->
      untorn (chain w) node ->
      reachable transact_on (create_live node w).2
  | reach_restart w t w' node :
      reachable transact_on w ->
      db w = Some t ->
      isfile (fs w') && access_R_OK (fs w') = true ->
      tinydb_open (fs w') = Ok t ->
      reachable transact_on (create_live node w').2
  | reach_hat w node :
      reachable transact_on w ->
      untorn (chain w) node ->
      reachable transact_on (check_hat_live transact_on node w).2
  | reach_eta w node :
      reachable transact_on w ->
      reachable transact_on (check_eta_live transact_on node w).2
  | reach_block w node :
      reachable transact_on w ->
      untorn (chain w) node ->
      reachable transact_on (process_block_live transact_on node w).2
  | reach_chain w c :
      reachable transact_on w ->
      reachable transact_on (set_chain c w).

(** ** More observations and scenarios *)

(** The checkpoint of the store, when document 1 holds one. *)
Definition checkpoint (w : World) : option Z :=
  match db w with
  | Some t =>
      match TinyDB.get 1 t with
      | Some d => last_block_checked d
      | None => None
      end
  | None => None
  end.

(** The worlds that follow [w] after any number of block callbacks, the
    node changing its answers in between. *)
Inductive later
  (transact_on : Tx -> Chain -> result (option Receipt) * Chain)
  (w : World) : World -> Prop :=
  | later_now : later transact_on w w
  | later_block w' :
      later transact_on w w' ->
      later transact_on w (process_block transact_on w').2
  | later_chain w' c :
      later transact_on w w' -> later transact_on w (set_chain c w').

(** A submitter whose schedule takes effect: the receipt is a failure, yet
    the node reports eta [e] afterwards. *)
Definition scheduling_submitter (e : N) (t : Tx) (c : Chain)
  : result (option Receipt) * Chain :=
  (Ok (Some (mkReceipt false)),
   {| blockNumber := blockNumber c;
      getBlock := getBlock c;
      get_hat := get_hat c;
      is_contract_at := is_contract_at c;
      spell_eta := fun _ => Ok e;
      spell_done := spell_done c |}).

(** A submitter that raises and leaves the node as it was. *)
Definition failing_submitter (t : Tx) (c : Chain)
  : result (option Receipt) * Chain :=
  (Raise RPCError, c).

(** A submitter whose transactions come back with a failed receipt. *)
Definition reverting_submitter (t : Tx) (c : Chain)
  : result (option Receipt) * Chain :=
  (Ok (Some (mkReceipt false)), c).

(** Leader A cached as unscheduled, the node agreeing. *)
Definition unscheduled_world : World :=
  running (steady_chain spell_A 7 50 true 0 false) 6
          (mkHat (Some spell_A) (Some 0) (Some false)).

(** The same with no code at A. *)
Definition account_world : World :=
  running (steady_chain spell_A 7 50 false 0 false) 6
          (mkHat (Some spell_A) (Some 0) (Some false)).

(** Leader A cached, the node reporting the new leader B, scheduled for 40
    and due at timestamp 50. *)
Definition changed_due_world : World :=
  running (steady_chain spell_B 7 50 true 40 false) 6
          (mkHat (Some spell_A) (Some 0) (Some false)).

(** A store that holds the leader record and no checkpoint. *)
Definition checkpointless_world : World :=
  {| chain := steady_chain spell_B 7 50 true 40 false; fs := no_file;
     db := Some {[ 2 := hat_fields (mkHat (Some spell_A) (Some 0) (Some false)) ]};
     txs := []; log := []; errors := 0; max_errors := 100;
     terminated := false |}.

(** A store that holds the checkpoint and no leader record. *)
Definition leaderless_world : World :=
  {| chain := steady_chain spell_A 7 50 true 0 false; fs := no_file;
     db := Some {[ 1 := block_fields 6 ]};
     txs := []; log := []; errors := 0; max_errors := 100;
     terminated := false |}.

(** A node that answers the block number and nothing else. *)
Definition hatless_chain (number : Z) : Chain :=
  {| blockNumber := Ok number;
     getBlock := fun _ => Raise RPCError;
     get_hat := Raise RPCError;
     is_contract_at := fun _ => Raise RPCError;
     spell_eta := fun _ => Raise RPCError;
     spell_done := fun _ => Raise RPCError |}.

(** A restart: the store file is there, readable, with leader A done. *)
Definition restart_world : World :=
  {| chain := down_chain;
     fs := {| isfile := true; access_R_OK := true;
              tinydb_open :=
                Ok {[ 1 := block_fields 6;
                      2 := hat_fields
                             (mkHat (Some spell_A) (Some 100) (Some true)) ]} |};
     db := None; txs := []; log := []; errors := 0; max_errors := 100;
     terminated := false |}.

(** The world after one block callback per state of the node in [cs], in
    that order. *)
Fixpoint process_blocks
  (transact_on : Tx -> Chain -> result (option Receipt) * Chain)
  (cs : list Chain) (w : World) : World :=
  match cs with
  | [] => w
  | c :: cs' =>
      process_blocks transact_on cs'
        (process_block transact_on (set_chain c w)).2
  end.

(** The node answers the block number and reports the null address as the
    leader. *)
Definition reports_no_leader (c : Chain) : Prop :=
  (exists number, blockNumber c = Ok number) /\
  get_hat c = Ok zero_address.

(** A node without a leader, at block [number]. *)
Definition leaderless_chain (number : Z) : Chain :=
  steady_chain zero_address number 50 false 0 false.

(** A keeper that has one error left in its budget; the node answers the
    block number and nothing else. *)
Definition last_chance_world : World :=
  {| chain := hatless_chain 7; fs := no_file;
     db := Some {[ 1 := block_fields 6;
                   2 := hat_fields
                          (mkHat (Some spell_A) (Some 0) (Some false)) ]};
     txs := []; log := []; errors := 0; max_errors := 1;
     terminated := false |}.

(** Leader B appears: unscheduled when the keeper asks for its eta, at
    place 2, scheduled for 900 and cast when it asks, one call later, for
    its done flag. *)
Definition appearing_chain : Chain :=
  steady_chain spell_B 7 50 true 0 false.

Definition cast_chain : Chain :=
  steady_chain spell_B 7 950 true 900 true.

Definition torn_node (k : nat) : option Chain :=
  match k with
  | 3%nat => Some cast_chain
  | _ => Some appearing_chain
  end.

Definition torn_world : World :=
  running appearing_chain 6 (mkHat (Some spell_A) (Some 100) (Some true)).

(** Leader A appears unscheduled, and is scheduled for 500 by another
    account after the keeper has read its eta. *)
Definition scheduling_node (k : nat) : option Chain :=
  match k with
  | 0%nat | 1%nat | 2%nat => Some (steady_chain spell_A 8 60 true 0 false)
  | _ => Some (steady_chain spell_A 8 60 true 500 false)
  end.

(** * Properties *)

Section Proofs.

Variable T : Tx -> Chain -> result (option Receipt) * Chain.

(** ** The monad *)

Lemma bind_Ok {A B} (m : M A) (k : A -> M B) w a w1 :
  m w = (Ok a, w1) -> bind m k w = k a w1.
Proof. intros H. unfold bind. by rewrite H. Qed.

Lemma bind_Raise {A B} (m : M A) (k : A -> M B) w e w1 :
  m w = (Raise e, w1) -> bind m k w = (Raise e, w1).
Proof. intros H. unfold bind. by rewrite H. Qed.

Lemma bind_inv_Ok {A B} (m : M A) (k : A -> M B) w b w' :
  bind m k w = (Ok b, w') ->
  exists a w1, m w = (Ok a, w1) /\ k a w1 = (Ok b, w').
Proof.
  unfold bind. destruct (m w) as [[a|e] w1]; intros H.
  - by exists a, w1.
  - discriminate.
Qed.

(** ** Frame lemmas *)

Lemma keeps_ret {A B} (f : World -> B) (a : A) : keeps f (ret a).
Proof. by intros w. Qed.

Lemma keeps_raise {A B} (f : World -> B) e : keeps f (@raise A e).
Proof. by intros w. Qed.

Lemma keeps_lift {A B} (f : World -> B) (r : result A) : keeps f (lift r).
Proof. by intros w. Qed.

Lemma keeps_read {A B} (f : World -> B) (g : Chain -> result A) :
  keeps f (read g).
Proof. by intros w. Qed.

Lemma keeps_the_db {B} (f : World -> B) : keeps f the_db.
Proof. intros w. unfold the_db. by destruct (db w). Qed.

Lemma keeps_bind {A B C} (f : World -> C) (m : M A) (k : A -> M B) :
  keeps f m -> (forall a, keeps f (k a)) -> keeps f (bind m k).
Proof.
  intros Hm Hk w. unfold bind. specialize (Hm w).
  destruct (m w) as [[a|e] w1]; simpl in *; [rewrite Hk|]; done.
Qed.

Lemma keeps_info {B} (f : World -> B) m : log_blind f -> keeps f (info m).
Proof. intros H w. apply H. Qed.

Lemma keeps_warning {B} (f : World -> B) m :
  log_blind f -> keeps f (warning m).
Proof. intros H w. apply H. Qed.

Lemma keeps_print {B} (f : World -> B) m : log_blind f -> keeps f (print m).
Proof. intros H w. apply H. Qed.

Lemma keeps_put_db {B} (f : World -> B) t : db_blind f -> keeps f (put_db t).
Proof. intros H w. apply H. Qed.

Lemma keeps_terminate {B} (f : World -> B) : stop_blind f -> keeps f terminate.
Proof. intros H w. apply H. Qed.

Lemma keeps_transact {B} (f : World -> B) t :
  tx_blind f -> chain_blind f -> keeps f (transact T t).
Proof.
  intros Ht Hc w. unfold transact.
  destruct (T t (chain (add_tx t w))) as [r c]. simpl.
  by rewrite Hc, Ht.
Qed.

Ltac keeps_step :=
  first
    [ assumption
    | match goal with H : forall _, keeps _ _ |- _ => apply H end
    | apply keeps_ret | apply keeps_raise | apply keeps_lift
    | apply keeps_read | apply keeps_the_db
    | apply keeps_info; assumption
    | apply keeps_warning; assumption
    | apply keeps_print; assumption
    | apply keeps_put_db; assumption
    | apply keeps_terminate; assumption
    | apply keeps_transact; assumption
    | apply keeps_bind; [| intros ?]
    | match goal with
      | |- keeps _ (if ?b then _ else _) => destruct b
      | |- keeps _ (match ?x with _ => _ end) => destruct x
      end
    | progress cbv zeta ].

Ltac keeps_tac := repeat keeps_step.

Lemma keeps_db_hat {B} (f : World -> B) : keeps f db_hat.
Proof. unfold db_hat. keeps_tac. Qed.

Lemma keeps_get_eta_in_unix {B} (f : World -> B) a :
  keeps f (get_eta_in_unix a).
Proof. unfold get_eta_in_unix. keeps_tac. Qed.

Lemma keeps_db_update {B} (f : World -> B) d k :
  db_blind f -> keeps f (db_update d k).
Proof. intros. unfold db_update. keeps_tac. Qed.

Lemma keeps_db_insert {B} (f : World -> B) d :
  db_blind f -> keeps f (db_insert d).
Proof. intros. unfold db_insert. keeps_tac. Qed.

Lemma keeps_update_db_hat {B} (f : World -> B) n :
  db_blind f -> keeps f (update_db_hat n).
Proof.
  intros. unfold update_db_hat.
  pose proof (keeps_db_hat f). pose proof (keeps_get_eta_in_unix f).
  pose proof (fun d k => keeps_db_update f d k ltac:(assumption)).
  keeps_tac.
Qed.

Lemma keeps_update_db_hat_eat {B} (f : World -> B) e :
  db_blind f -> keeps f (update_db_hat_eat e).
Proof.
  intros. unfold update_db_hat_eat.
  pose proof (keeps_db_hat f).
  pose proof (fun d k => keeps_db_update f d k ltac:(assumption)).
  keeps_tac.
Qed.

Lemma keeps_update_db_hat_done {B} (f : World -> B) b :
  db_blind f -> keeps f (update_db_hat_done b).
Proof.
  intros. unfold update_db_hat_done.
  pose proof (keeps_db_hat f).
  pose proof (fun d k => keeps_db_update f d k ltac:(assumption)).
  keeps_tac.
Qed.

Lemma keeps_check_hat {B} (f : World -> B) :
  log_blind f -> db_blind f -> tx_blind f -> chain_blind f ->
  keeps f (check_hat T).
Proof. intros. unfold check_hat. keeps_tac. Qed.

Lemma keeps_check_eta {B} (f : World -> B) :
  log_blind f -> tx_blind f -> chain_blind f ->
  (forall b, keeps f (update_db_hat_done b)) ->
  keeps f (check_eta T).
Proof. intros. unfold check_eta. keeps_tac. Qed.

Lemma keeps_process_block {B} (f : World -> B) :
  log_blind f -> db_blind f -> tx_blind f -> chain_blind f -> stop_blind f ->
  keeps f (process_block T).
Proof.
  intros. unfold process_block.
  apply keeps_bind; [by intros w|intros e].
  apply keeps_bind; [by intros w|intros m].
  destruct (m <=? e).
  - by apply keeps_terminate.
  - apply keeps_bind; [by apply keeps_check_hat|intros _].
    apply keeps_check_eta; try done.
    intros b. by apply keeps_update_db_hat_done.
Qed.

(** ** Reading the leader record *)

Lemma db_hat_cached w h : cached_hat w = Some h -> db_hat w = (Ok h, w).
Proof.
  unfold cached_hat, db_hat, bind, the_db.
  destruct (db w) as [t|]; [|done].
  destruct (TinyDB.get 2 t) as [d|]; [|done].
  by intros ->.
Qed.

Lemma db_hat_inv_Ok w h w' : db_hat w = (Ok h, w') -> w' = w /\ cached_hat w = Some h.
Proof.
  unfold cached_hat, db_hat, bind, the_db.
  destruct (db w) as [t|]; [|done].
  destruct (TinyDB.get 2 t) as [d|]; [|done].
  destruct (hat d); [|done].
  unfold ret. by intros [= -> ->].
Qed.

(** The guards of the eta monitor, as the code evaluates them. *)
Lemma eta_guards_pass h :
  get_address h <> zero_address -> done h <> Some true -> get_eta h <> 0 ->
  String.eqb (get_address h) zero_address || done_truthy h
    || (get_eta h =? 0) = false.
Proof.
  intros Ha Hd He.
  apply String.eqb_neq in Ha. apply Z.eqb_neq in He. rewrite Ha, He.
  unfold done_truthy. by destruct (done h) as [[]|].
Qed.

(** ** The eta monitor *)

(** C10. When the guards of the eta monitor pass and the node answers None
    to the fetch of the current block, the monitor logs one warning and
    returns: it submits no cast and leaves the store untouched. *)
Theorem check_eta_block_none w h number :
  cached_hat w = Some h ->
  get_address h <> zero_address -> done h <> Some true -> get_eta h <> 0 ->
  blockNumber (chain w) = Ok number ->
  getBlock (chain w) number = Ok None ->
  check_eta T w = (Ok tt, add_event (LogWarning (EtaBlockIsNone number)) w) /\
  txs (check_eta T w).2 = txs w /\
  db (check_eta T w).2 = db w /\
  log (check_eta T w).2 = log w ++ [LogWarning (EtaBlockIsNone number)].
Proof.
  intros Hh Ha Hd He Hn Hb.
  assert (check_eta T w
          = (Ok tt, add_event (LogWarning (EtaBlockIsNone number)) w)) as ->.
  { unfold check_eta.
    rewrite (bind_Ok _ _ _ _ _ (db_hat_cached _ _ Hh)).
    rewrite eta_guards_pass by done.
    unfold bind, read. by rewrite Hn, Hb. }
  done.
Qed.

(** *** Partial updates of the leader record *)

Lemma db_update_hat w h h' :
  cached_hat w = Some h ->
  exists w', db_update (hat_fields h') 2 w = (Ok tt, w') /\
             cached_hat w' = Some h'.
Proof.
  unfold cached_hat, db_update, bind, the_db, lift, put_db, TinyDB.get,
    TinyDB.update.
  destruct (db w) as [t|]; [|done].
  destruct (t !! 2) as [d|] eqn:Hd; [|done].
  intros Hh. eexists. split; [done|]. simpl.
  by rewrite lookup_insert_eq.
Qed.

Lemma update_db_hat_done_run w h b :
  cached_hat w = Some h ->
  exists w', update_db_hat_done b w = (Ok tt, w') /\
             cached_hat w' = Some (mkHat (address h) (eta h) (Some b)).
Proof.
  intros Hh. unfold update_db_hat_done.
  rewrite (bind_Ok _ _ _ _ _ (db_hat_cached _ _ Hh)).
  by apply db_update_hat with (h := h).
Qed.

Lemma update_db_hat_eat_run w h e :
  cached_hat w = Some h ->
  exists w', update_db_hat_eat e w = (Ok tt, w') /\
             cached_hat w' = Some (mkHat (address h) (Some e) (done h)).
Proof.
  intros Hh. unfold update_db_hat_eat.
  rewrite (bind_Ok _ _ _ _ _ (db_hat_cached _ _ Hh)).
  by apply db_update_hat with (h := h).
Qed.

Lemma txs_transact t w : txs (transact T t w).2 = txs w ++ [t].
Proof.
  unfold transact. by destruct (T t (chain (add_tx t w))).
Qed.

Lemma transact_run t w r c :
  T t (chain w) = (r, c) ->
  transact T t w = (r, set_chain c (add_tx t w)).
Proof. unfold transact. simpl. by intros ->. Qed.

Lemma keeps_after {A B C} (f : World -> C) (m : M A) (k : A -> M B) w :
  (forall a, keeps f (k a)) -> f (bind m k w).2 = f (m w).2.
Proof.
  intros Hk. unfold bind. destruct (m w) as [[a|e] w1]; [apply Hk|done].
Qed.

(** The eta monitor up to the submission, once the guards pass, the block
    is there and the action is due. *)
Lemma check_eta_due w h a number b :
  cached_hat w = Some h -> address h = Some a ->
  a <> zero_address -> done h <> Some true -> get_eta h <> 0 ->
  blockNumber (chain w) = Ok number ->
  getBlock (chain w) number = Ok (Some b) ->
  get_eta h <= timestamp b ->
  check_eta T w =
    (let* c := read (fun c => is_contract_at c a) in
     match (if c then Some a else None) with
     | None => raise AttributeError
     | Some s =>
         info (Casting s) ;;
         let* receipt := transact T (Cast s) in
         match receipt with
         | None => update_db_hat_done true
         | Some r => if successful r then update_db_hat_done true else ret tt
         end
     end) (add_event (LogInfo (CheckingScheduled number)) w).
Proof.
  intros Hh Ha Hz Hd He Hn Hb Hdue.
  assert (get_address h = a) as Hga by (unfold get_address; by rewrite Ha).
  unfold check_eta.
  rewrite (bind_Ok _ _ _ _ _ (db_hat_cached _ _ Hh)).
  rewrite eta_guards_pass by (by rewrite ?Hga).
  rewrite Hga.
  rewrite (bind_Ok _ _ w number w) by (unfold read; by rewrite Hn).
  rewrite (bind_Ok _ _ w (Some b) w) by (unfold read; by rewrite Hb).
  rewrite (bind_Ok _ _ w tt (add_event (LogInfo (CheckingScheduled number)) w))
    by done.
  by rewrite (proj2 (Z.ltb_ge _ _) Hdue).
Qed.

(** C3. After the eta monitor has submitted the cast, the cached done flag
    becomes true exactly when the receipt is absent or successful; on a
    failed receipt the record stays as it was. *)
Theorem check_eta_marks_done w h a number b r c :
  cached_hat w = Some h -> address h = Some a ->
  a <> zero_address -> done h <> Some true -> get_eta h <> 0 ->
  blockNumber (chain w) = Ok number ->
  getBlock (chain w) number = Ok (Some b) ->
  get_eta h <= timestamp b ->
  is_contract_at (chain w) a = Ok true ->
  T (Cast a) (chain w) = (Ok r, c) ->
  exists w' h',
    check_eta T w = (Ok tt, w') /\
    txs w' = txs w ++ [Cast a] /\
    cached_hat w' = Some h' /\
    h' = match r with
         | Some {| successful := false |} => h
         | _ => mkHat (address h) (eta h) (Some true)
         end /\
    (done h' = Some true <->
     r = None \/ exists rc, r = Some rc /\ successful rc = true).
Proof.
  intros Hh Ha Hz Hd He Hn Hb Hdue Hc Ht.
  rewrite (check_eta_due w h a number b) by done.
  set (w1 := add_event _ w).
  rewrite (bind_Ok _ _ w1 true w1) by (unfold read; simpl; by rewrite Hc).
  rewrite (bind_Ok _ _ w1 tt (add_event (LogInfo (Casting a)) w1)) by done.
  set (w2 := add_event _ w1).
  rewrite (bind_Ok _ _ _ _ _ (transact_run (Cast a) w2 (Ok r) c Ht)).
  set (w3 := set_chain c _).
  assert (cached_hat w3 = Some h) as Hh3 by done.
  destruct r as [[[]]|].
  - destruct (update_db_hat_done_run w3 h true Hh3) as (w' & Hrun & Hh').
    exists w', (mkHat (address h) (eta h) (Some true)). simpl.
    split; [done|]. split.
    { change w' with (Ok tt, w').2. rewrite <- Hrun.
      by rewrite keeps_update_db_hat_done. }
    split; [done|]. split; [done|]. split; [|done]. intros _. right. by eexists.
  - exists w3, h. simpl. split; [done|]. split; [done|]. split; [done|].
    split; [done|]. split; [done|]. intros [|(rc & [= <-] & ?)]; done.
  - destruct (update_db_hat_done_run w3 h true Hh3) as (w' & Hrun & Hh').
    exists w', (mkHat (address h) (eta h) (Some true)). simpl.
    split; [done|]. split.
    { change w' with (Ok tt, w').2. rewrite <- Hrun.
      by rewrite keeps_update_db_hat_done. }
    split; [done|]. split; [done|]. split; [|done]. intros _. by left.
Qed.

(** When the action is due and the leader address has no code, the eta
    monitor raises [AttributeError] on [spell.address] of [None]; it has
    submitted nothing. *)
Lemma check_eta_no_code w h a number b :
  cached_hat w = Some h -> address h = Some a ->
  a <> zero_address -> done h <> Some true -> get_eta h <> 0 ->
  blockNumber (chain w) = Ok number ->
  getBlock (chain w) number = Ok (Some b) ->
  get_eta h <= timestamp b ->
  is_contract_at (chain w) a = Ok false ->
  check_eta T w
  = (Raise AttributeError, add_event (LogInfo (CheckingScheduled number)) w).
Proof.
  intros Hh Ha Hz Hd He Hn Hb Hdue Hc.
  rewrite (check_eta_due w h a number b) by done.
  set (w1 := add_event _ w).
  by rewrite (bind_Ok _ _ w1 false w1) by (unfold read; simpl; by rewrite Hc).
Qed.

(** C8. With eta [due] cached for a leader that has code and is not done,
    the eta monitor submits no cast on a block stamped [due - 1] and exactly
    one on a block stamped [due]; the time compared with eta is the
    timestamp of the block that the node returns. *)
Theorem check_eta_due_time w1 w2 a due :
  armed w1 a due (due - 1) ->
  armed w2 a due due ->
  (check_eta T w1).1 = Ok tt /\
  txs (check_eta T w1).2 = txs w1 /\
  txs (check_eta T w2).2 = txs w2 ++ [Cast a].
Proof.
  intros (h1 & n1 & Hh1 & Ha1 & Hz1 & Hd1 & He1 & Hne1 & Hn1 & Hb1 & _)
         (h2 & n2 & Hh2 & Ha2 & Hz2 & Hd2 & He2 & Hne2 & Hn2 & Hb2 & Hc2).
  assert (check_eta T w1
          = (Ok tt, add_event (LogInfo (CheckingScheduled n1)) w1)) as ->.
  { assert (get_address h1 = a) as Hga by (unfold get_address; by rewrite Ha1).
    assert (get_eta h1 = due) as Hge by (unfold get_eta; by rewrite He1).
    unfold check_eta.
    rewrite (bind_Ok _ _ _ _ _ (db_hat_cached _ _ Hh1)).
    rewrite eta_guards_pass by (by rewrite ?Hga, ?Hge, ?Hd1).
    rewrite (bind_Ok _ _ w1 n1 w1) by (unfold read; by rewrite Hn1).
    rewrite (bind_Ok _ _ w1 (Some (mkBlock (due - 1))) w1)
      by (unfold read; by rewrite Hb1).
    rewrite (bind_Ok _ _ w1 tt (add_event (LogInfo (CheckingScheduled n1)) w1))
      by done.
    rewrite Hge. simpl.
    by rewrite (proj2 (Z.ltb_lt (due - 1) due)) by lia. }
  split; [done|]. split; [done|].
  assert (get_eta h2 = due) as Hge by (unfold get_eta; by rewrite He2).
  rewrite (check_eta_due w2 h2 a n2 (mkBlock due))
    by (try done; rewrite ?Hge, ?Hd2; simpl; (done || lia)).
  set (w := add_event _ w2).
  rewrite (bind_Ok _ _ w true w) by (unfold read; simpl; by rewrite Hc2).
  rewrite (bind_Ok _ _ w tt (add_event (LogInfo (Casting a)) w)) by done.
  rewrite keeps_after.
  - by rewrite txs_transact.
  - intros [[[]]|]; first [by apply keeps_update_db_hat_done | apply keeps_ret].
Qed.

(** ** The hat monitor *)

Lemma guards_stop h :
  get_address h = zero_address \/ done h = Some true ->
  String.eqb (get_address h) zero_address || done_truthy h = true.
Proof.
  intros [->|Hd].
  - by rewrite String.eqb_refl.
  - unfold done_truthy. rewrite Hd. apply orb_true_r.
Qed.

(** The hat monitor up to the guards: block number, log line, reconcile. *)
Lemma check_hat_reconciled {A} (k : Hat -> M A) k' w number w1 h :
  blockNumber (chain w) = Ok number ->
  update_db_hat number (add_event (LogInfo (CheckingHat number)) w)
  = (Ok tt, w1) ->
  cached_hat w1 = Some h ->
  (forall n, k' n = (info (CheckingHat n) ;; update_db_hat n ;;
                     let* hat := db_hat in k hat)) ->
  (let* n := read blockNumber in k' n) w = k h w1.
Proof.
  intros Hn Hu Hh Hk.
  rewrite (bind_Ok _ _ w number w) by (unfold read; by rewrite Hn).
  rewrite Hk.
  rewrite (bind_Ok _ _ w tt (add_event (LogInfo (CheckingHat number)) w)) by done.
  rewrite (bind_Ok _ _ _ _ _ Hu).
  by rewrite (bind_Ok _ _ _ _ _ (db_hat_cached _ _ Hh)).
Qed.

(** C7. While the leader record that the guards read has the null address,
    or has its done flag set, a block callback submits no transaction:
    the hat monitor returns at its guard, the eta monitor at its own. *)
Theorem guards_stop_both_monitors w number w1 h :
  blockNumber (chain w) = Ok number ->
  update_db_hat number (add_event (LogInfo (CheckingHat number)) w)
  = (Ok tt, w1) ->
  cached_hat w1 = Some h ->
  get_address h = zero_address \/ done h = Some true ->
  check_hat T w = (Ok tt, w1) /\
  check_eta T w1 = (Ok tt, w1) /\
  txs w1 = txs w /\
  txs (process_block T w).2 = txs w.
Proof.
  intros Hn Hu Hh Hg.
  assert (check_hat T w = (Ok tt, w1)) as Hhat.
  { unfold check_hat.
    erewrite check_hat_reconciled by (done || (intros; reflexivity)).
    simpl. by rewrite guards_stop. }
  assert (check_eta T w1 = (Ok tt, w1)) as Heta.
  { unfold check_eta.
    rewrite (bind_Ok _ _ _ _ _ (db_hat_cached _ _ Hh)).
    by rewrite guards_stop. }
  assert (txs w1 = txs w) as Htx.
  { change w1 with (Ok tt, w1).2. rewrite <- Hu.
    by rewrite keeps_update_db_hat. }
  repeat split; try done.
  unfold process_block, bind at 1 2. simpl.
  destruct (max_errors w <=? errors w); [done|].
  rewrite (bind_Ok _ _ _ _ _ Hhat). by rewrite Heta.
Qed.

(** C1. When the record that the hat monitor reads after its reconcile has
    eta 0 and done false, and the node then reports a nonzero eta for the
    leader's action, the monitor stores that eta with the partial update
    and returns; no schedule transaction is submitted. *)
Theorem check_hat_adopts_chain_eta w number w1 h a e :
  blockNumber (chain w) = Ok number ->
  update_db_hat number (add_event (LogInfo (CheckingHat number)) w)
  = (Ok tt, w1) ->
  cached_hat w1 = Some h ->
  address h = Some a -> a <> zero_address ->
  done h = Some false -> get_eta h = 0 ->
  is_contract_at (chain w) a = Ok true ->
  spell_eta (chain w) a = Ok e -> e <> 0%N ->
  exists w',
    check_hat T w = (Ok tt, w') /\
    txs w' = txs w /\
    cached_hat w' = Some (mkHat (address h) (Some (Z.of_N e)) (done h)).
Proof.
  intros Hn Hu Hh Ha Hz Hd He Hc Hs Hne.
  assert (get_address h = a) as Hga by (unfold get_address; by rewrite Ha).
  assert (chain w1 = chain w) as Hch.
  { change w1 with (Ok tt, w1).2. rewrite <- Hu.
    by rewrite keeps_update_db_hat. }
  assert (txs w1 = txs w) as Htx.
  { change w1 with (Ok tt, w1).2. rewrite <- Hu.
    by rewrite keeps_update_db_hat. }
  unfold check_hat.
  erewrite check_hat_reconciled by (done || (intros; reflexivity)).
  simpl. rewrite Hga.
  rewrite (proj2 (String.eqb_neq _ _) Hz).
  unfold done_truthy, done_is_False. rewrite Hd, He. simpl.
  rewrite (bind_Ok _ _ w1 true w1) by (unfold read; by rewrite Hch, Hc).
  simpl.
  rewrite (bind_Ok _ _ w1 (Z.of_N e) w1)
    by (unfold get_eta_in_unix, bind, read; by rewrite Hch, Hs).
  rewrite (proj2 (Z.ltb_lt 0 (Z.of_N e))) by lia.
  set (w2 := add_event (LogInfo (AlreadyScheduled h (Z.of_N e))) w1).
  rewrite (bind_Ok _ _ w1 tt w2) by done.
  destruct (update_db_hat_eat_run w2 h (Z.of_N e)) as (w' & Hrun & Hh');
    [done|].
  exists w'. split; [done|]. split; [|by rewrite Hh', Hd].
  change w' with (Ok tt, w').2. rewrite <- Hrun.
  by rewrite keeps_update_db_hat_eat.
Qed.

(** ** The block callback *)

Lemma errors_blind :
  log_blind errors /\ db_blind errors /\ tx_blind errors /\
  chain_blind errors /\ stop_blind errors.
Proof. by repeat split. Qed.

Lemma max_errors_blind :
  log_blind max_errors /\ db_blind max_errors /\ tx_blind max_errors /\
  chain_blind max_errors /\ stop_blind max_errors.
Proof. by repeat split. Qed.

Lemma terminated_blind :
  log_blind terminated /\ db_blind terminated /\ tx_blind terminated /\
  chain_blind terminated.
Proof. by repeat split. Qed.

Lemma process_block_run w :
  process_block T w
  = (if max_errors w <=? errors w then (Ok tt, set_terminated w)
     else match check_hat T w with
          | (Ok _, w1) => check_eta T w1
          | (Raise e, w1) => (Raise e, w1)
          end).
Proof.
  unfold process_block, bind at 1 2. simpl.
  by destruct (max_errors w <=? errors w).
Qed.

(** Nothing in the callback touches the error counter or its maximum. *)
Lemma process_block_keeps_errors w :
  errors (process_block T w).2 = errors w /\
  max_errors (process_block T w).2 = max_errors w.
Proof.
  destruct errors_blind as (? & ? & ? & ? & ?).
  destruct max_errors_blind as (? & ? & ? & ? & ?).
  split; by apply keeps_process_block.
Qed.

(** The monitors never ask the lifecycle to terminate. *)
Lemma monitors_keep_terminated w :
  terminated (check_hat T w).2 = terminated w /\
  terminated (check_eta T w).2 = terminated w.
Proof.
  destruct terminated_blind as (? & ? & ? & ?).
  split; [by apply keeps_check_hat|].
  apply keeps_check_eta; try done.
  intros b. by apply keeps_update_db_hat_done.
Qed.

(** C9 fails on the code. Below the maximum the callback runs the hat
    monitor and then the eta monitor, and when either raises, the exception
    leaves the callback with the world that the monitor left: nothing
    catches it, and the error counter is not incremented. So the counter never reaches
    the maximum: at the next block, whatever the node then answers, the
    callback runs the monitors again and does not terminate, even when the
    failure was the last one that the budget allowed. *)
Theorem process_block_error_uncounted w x w1 :
  errors w < max_errors w ->
  (check_hat T w = (Raise x, w1) \/
   exists w0, check_hat T w = (Ok tt, w0) /\ check_eta T w0 = (Raise x, w1)) ->
  process_block T w = (Raise x, w1) /\
  errors w1 = errors w /\
  max_errors w1 = max_errors w /\
  forall c,
    process_block T (set_chain c w1)
    = (check_hat T ;; check_eta T) (set_chain c w1) /\
    terminated (process_block T (set_chain c w1)).2 = terminated w.
Proof.
  intros Hlt%Z.leb_gt Hraise.
  assert (process_block T w = (Raise x, w1)) as Hrun.
  { rewrite process_block_run, Hlt.
    destruct Hraise as [->|(w0 & -> & ->)]; done. }
  destruct (process_block_keeps_errors w) as [He Hm].
  rewrite Hrun in He, Hm. simpl in He, Hm.
  split; [done|]. split; [done|]. split; [done|].
  intros c.
  assert (process_block T (set_chain c w1)
          = (check_hat T ;; check_eta T) (set_chain c w1)) as Hnext.
  { rewrite process_block_run. simpl. by rewrite Hm, He, Hlt. }
  split; [done|]. rewrite Hnext. unfold bind.
  assert (forall w0,
            terminated (match check_hat T w0 with
                        | (Ok _, w2) => check_eta T w2
                        | (Raise y, w2) => (Raise y, w2)
                        end).2 = terminated w0) as Hkeep.
  { intros w0. destruct (monitors_keep_terminated w0) as [Hhat _].
    destruct (check_hat T w0) as [[[]|y] w2]; [|done].
    simpl in Hhat. rewrite <- Hhat.
    by destruct (monitors_keep_terminated w2) as [_ ->]. }
  rewrite Hkeep. simpl.
  change w1 with (Raise x : result unit, w1).2. rewrite <- Hrun.
  rewrite process_block_run, Hlt. apply Hkeep.
Qed.

(** *** Reconciling the leader *)

Lemma keeps_cached_hat_block n : keeps cached_hat (db_update (block_fields n) 1).
Proof.
  intros w. unfold db_update, bind, the_db, lift, put_db, TinyDB.update.
  destruct (db w) as [t|] eqn:Ht; [|done].
  destruct (t !! 1) as [d|]; [|done]. simpl.
  unfold cached_hat, TinyDB.get. simpl. rewrite Ht.
  by rewrite lookup_insert_ne.
Qed.

Lemma db_update_hat_inv w w' h' :
  db_update (hat_fields h') 2 w = (Ok tt, w') -> cached_hat w' = Some h'.
Proof.
  unfold db_update, bind, the_db, lift, put_db, TinyDB.update.
  destruct (db w) as [t|]; [|done].
  destruct (t !! 2) as [d|]; [|done]. intros [= <-].
  unfold cached_hat, TinyDB.get. simpl. by rewrite lookup_insert_eq.
Qed.

Lemma read_inv_Ok {A} (g : Chain -> result A) w a w' :
  read g w = (Ok a, w') -> w' = w /\ g (chain w) = Ok a.
Proof. unfold read. by intros [= -> ->]. Qed.

Lemma get_eta_in_unix_inv_Ok a w z w' :
  get_eta_in_unix a w = (Ok z, w') ->
  w' = w /\ exists e, spell_eta (chain w) a = Ok e /\ z = Z.of_N e.
Proof.
  unfold get_eta_in_unix, bind, read, ret.
  destruct (spell_eta (chain w) a) as [e|]; [|done].
  intros [= <- <-]. eauto.
Qed.

(** What the reconcile step leaves in the store when it returns. *)
Lemma update_db_hat_spec n w w1 a h0 :
  get_hat (chain w) = Ok a -> cached_hat w = Some h0 ->
  update_db_hat n w = (Ok tt, w1) ->
  exists h1,
    cached_hat w1 = Some h1 /\
    (address h0 = Some a /\ h1 = h0 \/
     address h0 <> Some a /\
     exists e d, spell_eta (chain w) a = Ok e /\
                 spell_done (chain w) a = Ok d /\
                 h1 = mkHat (Some a) (Some (Z.of_N e)) (Some d)).
Proof.
  intros Ha Hh. unfold update_db_hat.
  rewrite (bind_Ok _ _ w a w) by (unfold read; by rewrite Ha).
  rewrite (bind_Ok _ _ _ _ _ (db_hat_cached _ _ Hh)).
  intros Hrun. apply bind_inv_Ok in Hrun as ([] & w0 & Hfirst & Hlast).
  assert (cached_hat w1 = cached_hat w0) as ->.
  { change w1 with (Ok tt, w1).2. rewrite <- Hlast.
    apply keeps_cached_hat_block. }
  destruct (bool_decide (address h0 = Some a)) eqn:Hb; simpl in Hfirst.
  - apply bool_decide_eq_true in Hb. injection Hfirst as <-. eauto.
  - apply bool_decide_eq_false in Hb.
    apply bind_inv_Ok in Hfirst as (z & w2 & He & Hfirst).
    apply get_eta_in_unix_inv_Ok in He as (-> & e & He & ->).
    apply bind_inv_Ok in Hfirst as (d & w3 & Hd & Hfirst).
    apply read_inv_Ok in Hd as (-> & Hd).
    apply db_update_hat_inv in Hfirst. eauto 10.
Qed.

Lemma keeps_cached_address_eat e : keeps cached_address (update_db_hat_eat e).
Proof.
  intros w. destruct (cached_hat w) as [h|] eqn:Hh.
  - destruct (update_db_hat_eat_run w h e Hh) as (w' & -> & Hh').
    unfold cached_address. simpl. by rewrite Hh', Hh.
  - unfold update_db_hat_eat, bind.
    destruct (db_hat w) as [[h|x] w'] eqn:Hdb.
    + apply db_hat_inv_Ok in Hdb as [_ Hdb]. congruence.
    + by rewrite <- (keeps_db_hat cached_address w), Hdb.
Qed.

Lemma keeps_cached_address_done b :
  keeps cached_address (update_db_hat_done b).
Proof.
  intros w. destruct (cached_hat w) as [h|] eqn:Hh.
  - destruct (update_db_hat_done_run w h b Hh) as (w' & -> & Hh').
    unfold cached_address. simpl. by rewrite Hh', Hh.
  - unfold update_db_hat_done, bind.
    destruct (db_hat w) as [[h|x] w'] eqn:Hdb.
    + apply db_hat_inv_Ok in Hdb as [_ Hdb]. congruence.
    + by rewrite <- (keeps_db_hat cached_address w), Hdb.
Qed.

(** After its reconcile step the hat monitor keeps every observation that
    the partial eta update keeps and that ignores log, transactions and
    node. *)
Lemma check_hat_after_reconcile {B} (f : World -> B) w number w1 :
  log_blind f -> tx_blind f -> chain_blind f ->
  (forall e, keeps f (update_db_hat_eat e)) ->
  blockNumber (chain w) = Ok number ->
  update_db_hat number (add_event (LogInfo (CheckingHat number)) w)
  = (Ok tt, w1) ->
  f (check_hat T w).2 = f w1.
Proof.
  intros Hl Ht Hc He Hn Hu. unfold check_hat.
  rewrite (bind_Ok _ _ w number w) by (unfold read; by rewrite Hn).
  rewrite (bind_Ok _ _ w tt (add_event (LogInfo (CheckingHat number)) w)) by done.
  rewrite (bind_Ok _ _ _ _ _ Hu).
  match goal with
  | |- f (?m w1).2 = _ => enough (keeps f m) as HK by apply HK
  end.
  keeps_tac.
Qed.

Lemma check_hat_inv_Ok w w2 :
  check_hat T w = (Ok tt, w2) ->
  exists number w1,
    blockNumber (chain w) = Ok number /\
    update_db_hat number (add_event (LogInfo (CheckingHat number)) w)
    = (Ok tt, w1).
Proof.
  unfold check_hat. intros H.
  apply bind_inv_Ok in H as (number & w0 & Hn & H).
  apply read_inv_Ok in Hn as (-> & Hn).
  apply bind_inv_Ok in H as ([] & w0 & Hi & H). injection Hi as <-.
  apply bind_inv_Ok in H as ([] & w1 & Hu & H).
  eauto.
Qed.

(** C5, as the code has it. After a block callback that returns, the cached
    leader address is the address that the node reported to the hat monitor.
    When that address differs from the cached one the reconcile step replaces
    the record by the node's eta and done flag for the new leader, whatever
    they are; when it does not differ the reconcile step leaves the record
    as it was. *)
Theorem leader_reconciled w w' a h0 :
  errors w < max_errors w ->
  get_hat (chain w) = Ok a ->
  cached_hat w = Some h0 ->
  process_block T w = (Ok tt, w') ->
  exists number w1 h1,
    blockNumber (chain w) = Ok number /\
    update_db_hat number (add_event (LogInfo (CheckingHat number)) w)
    = (Ok tt, w1) /\
    cached_hat w1 = Some h1 /\
    (address h0 = Some a /\ h1 = h0 \/
     address h0 <> Some a /\
     exists e d, spell_eta (chain w) a = Ok e /\
                 spell_done (chain w) a = Ok d /\
                 h1 = mkHat (Some a) (Some (Z.of_N e)) (Some d)) /\
    cached_address w' = Some a.
Proof.
  intros Hlt Ha Hh Hrun.
  pose proof (process_block_run w) as Hpb.
  rewrite Hpb, (proj2 (Z.leb_gt _ _) Hlt) in Hrun.
  destruct (check_hat T w) as [[[]|x] w2] eqn:Hhat; [|done].
  destruct (check_hat_inv_Ok w w2 Hhat) as (number & w1 & Hn & Hu).
  destruct (update_db_hat_spec number (add_event (LogInfo (CheckingHat number)) w)
              w1 a h0 Ha Hh Hu) as (h1 & Hh1 & Hcase).
  exists number, w1, h1. repeat split; try done.
  assert (cached_address w1 = Some a) as Ha1.
  { unfold cached_address. rewrite Hh1. simpl.
    destruct Hcase as [[? ->]|(_ & e & d & _ & _ & ->)]; done. }
  assert (cached_address w2 = Some a) as Ha2.
  { rewrite <- Ha1. change w2 with (Ok tt, w2).2. rewrite <- Hhat.
    apply (check_hat_after_reconcile cached_address w number w1); try done.
    apply keeps_cached_address_eat. }
  rewrite <- Ha2. change w' with (Ok tt, w').2. rewrite <- Hrun.
  apply keeps_check_eta; try done. apply keeps_cached_address_done.
Qed.

(** ** The invariant of the leader record *)

Lemma triple_bind {A B} P (m : M A) R (k : A -> M B) Q E :
  triple P m R E -> (forall a, triple (R a) (k a) Q E) ->
  triple P (bind m k) Q E.
Proof.
  intros Hm Hk w HP. unfold bind. specialize (Hm w HP).
  destruct (m w) as [[a|e] w1]; [by apply Hk|done].
Qed.

Lemma triple_ret {A} (P : World -> Prop) (a : A) (Q : A -> World -> Prop) E :
  (forall w, P w -> Q a w) -> triple P (ret a) Q E.
Proof. intros H w HP. by apply H. Qed.

Lemma triple_pre {A} (P P' : World -> Prop) (m : M A) Q E :
  (forall w, P w -> P' w) -> triple P' m Q E -> triple P m Q E.
Proof. intros HP Hm w Hw. by apply Hm, HP. Qed.

Lemma triple_post {A} (P : World -> Prop) (m : M A) Q Q' E :
  triple P m Q' E -> (forall a w, Q' a w -> Q a w) -> triple P m Q E.
Proof.
  intros Hm HQ w Hw. specialize (Hm w Hw).
  destruct (m w) as [[a|e] w']; [by apply HQ|done].
Qed.

(** A computation that leaves the world alone, with what it returned. *)
Lemma triple_still {A} (P E : World -> Prop) (m : M A) :
  keeps id m -> (forall w, P w -> E w) ->
  triple P m (fun a w => P w /\ m w = (Ok a, w)) E.
Proof.
  intros Hk HE w HP. pose proof (Hk w) as Hw. unfold id in Hw.
  destruct (m w) as [[a|e] w'] eqn:Hm; simpl in Hw; subst w'.
  - by rewrite Hm.
  - by apply HE.
Qed.

Lemma triple_still_keep {A} (P E : World -> Prop) (m : M A) :
  keeps id m -> (forall w, P w -> E w) -> triple P m (fun _ => P) E.
Proof.
  intros Hk HE w HP. generalize (triple_still P E m Hk HE w HP).
  destruct (m w) as [[a|e] w']; [by intros []|done].
Qed.

Lemma triple_info (P : World -> Prop) m E :
  (forall e w, P w -> P (add_event e w)) -> triple P (info m) (fun _ => P) E.
Proof. intros H w HP. by apply H. Qed.

Lemma triple_print (P : World -> Prop) m E :
  (forall e w, P w -> P (add_event e w)) -> triple P (print m) (fun _ => P) E.
Proof. intros H w HP. by apply H. Qed.

Lemma triple_warning (P : World -> Prop) m E :
  (forall e w, P w -> P (add_event e w)) ->
  triple P (warning m) (fun _ => P) E.
Proof. intros H w HP. by apply H. Qed.

Lemma triple_db_update (P : World -> Prop) fields k Q E :
  (forall w t t', P w -> db w = Some t -> TinyDB.update fields k t = Ok t' ->
                  Q tt (set_db t' w)) ->
  (forall w, P w -> E w) ->
  triple P (db_update fields k) Q E.
Proof.
  intros HQ HE w HP. unfold db_update, bind, the_db, lift, put_db.
  destruct (db w) as [t|] eqn:Ht; [|by apply HE].
  destruct (TinyDB.update fields k t) as [t'|] eqn:Hu; [|by apply HE].
  by apply (HQ w t t').
Qed.

Lemma triple_db_insert (P : World -> Prop) d Q E :
  (forall w t, P w -> db w = Some t -> Q tt (set_db (TinyDB.insert d t) w)) ->
  (forall w, P w -> E w) ->
  triple P (db_insert d) Q E.
Proof.
  intros HQ HE w HP. unfold db_insert, bind, the_db, put_db.
  destruct (db w) as [t|] eqn:Ht; [|by apply HE].
  by apply (HQ w t).
Qed.

Lemma triple_run {A} (P E : World -> Prop) (m : M A) w :
  triple P m (fun _ => E) E -> P w -> E (m w).2.
Proof. intros H HP. specialize (H w HP). by destruct (m w) as [[a|e] w']. Qed.

Lemma table_inv_update P fields k t t' :
  table_inv P t -> (forall h, hat fields = Some h -> P h) ->
  TinyDB.update fields k t = Ok t' -> table_inv P t'.
Proof.
  intros Ht Hf. unfold TinyDB.update.
  destruct (t !! k) as [d0|] eqn:Hk; [|done]. intros [= <-].
  intros k' d h Hl Hh. apply lookup_insert_Some in Hl as [[-> <-]|[_ Hl]].
  - simpl in Hh. destruct (hat fields) as [hf|] eqn:Hhf.
    + injection Hh as <-. by apply Hf.
    + by apply (Ht k' d0 h).
  - by apply (Ht k' d h).
Qed.

Lemma table_inv_insert P d t :
  table_inv P t -> (forall h, hat d = Some h -> P h) ->
  table_inv P (TinyDB.insert d t).
Proof.
  intros Ht Hd k' d' h Hl Hh. unfold TinyDB.insert in Hl.
  apply lookup_insert_Some in Hl as [[_ <-]|[_ Hl]].
  - by apply Hd.
  - by apply (Ht k' d' h).
Qed.

Lemma consistent_set_db w t :
  table_inv record_inv t -> consistent (set_db t w).
Proof. intros Ht. by intros t' [= <-]. Qed.

Lemma update_block_consistent n :
  triple consistent (db_update (block_fields n) 1) (fun _ => consistent)
         consistent.
Proof.
  apply triple_db_update; [|done].
  intros w t t' Hs Ht Hu. apply consistent_set_db.
  by apply (table_inv_update record_inv (block_fields n) 1 t t');
    [apply Hs| |].
Qed.

Lemma update_hat_consistent (P : World -> Prop) h :
  (forall w, P w -> consistent w /\ record_inv h) ->
  triple P (db_update (hat_fields h) 2) (fun _ => consistent) consistent.
Proof.
  intros HP. apply triple_db_update; [|by intros w [? _]%HP].
  intros w t t' [Hs Hh]%HP Ht Hu. apply consistent_set_db.
  apply (table_inv_update record_inv (hat_fields h) 2 t t');
    [by apply Hs| |done].
  by intros h' [= <-].
Qed.

(** *** The node between two calls *)

Lemma triple_moved_to (P : World -> Prop) o (Q : unit -> World -> Prop) E :
  (forall w, P w ->
             Q tt match o with Some c => set_chain c w | None => w end) ->
  triple P (moved_to o) Q E.
Proof. intros H w HP. specialize (H w HP). unfold moved_to. by destruct o. Qed.

Lemma triple_moved_to_keep (P : World -> Prop) o E :
  (forall c w, P w -> P (set_chain c w)) ->
  triple P (moved_to o) (fun _ => P) E.
Proof. intros H. apply triple_moved_to. intros w Hw. destruct o; auto. Qed.

(** The eta and the done flag of a fresh record are read at the places 2
    and 3; whatever is done with them, they satisfy the invariant of the
    data model when the two reads are not torn. *)
Lemma fresh_record_consistent {B} o2 o3 a (k : Z -> bool -> M B) Q :
  (forall z d,
     triple (fun w => consistent w /\
                      hat_inv (mkHat (Some a) (Some z) (Some d)))
            (k z d) Q consistent) ->
  triple (fun w => consistent w /\ pair_calm (chain w) o2 o3)
    (moved_to o2 ;;
     let* eta := get_eta_in_unix a in
     moved_to o3 ;;
     let* done := read (fun c => spell_done c a) in
     k eta done) Q consistent.
Proof.
  intros Hk w [Hs Hcalm]. unfold pair_calm in Hcalm.
  assert (forall e d,
            spell_eta (default (chain w) o2) a = Ok e ->
            spell_done (default (default (chain w) o2) o3) a = Ok d ->
            hat_inv (mkHat (Some a) (Some (Z.of_N e)) (Some d))) as Hinv.
  { intros e d He Hd [= Hz]. simpl. f_equal. apply (Hcalm a d); [|done].
    rewrite He. f_equal. lia. }
  unfold get_eta_in_unix, bind, read, moved_to, ret.
  destruct o2 as [c2|], o3 as [c3|]; simpl in *.
  - destruct (spell_eta c2 a) as [e|x] eqn:He; [|exact Hs]. simpl.
    destruct (spell_done c3 a) as [d|x] eqn:Hd; [|exact Hs].
    apply Hk. split; [exact Hs|by apply Hinv].
  - destruct (spell_eta c2 a) as [e|x] eqn:He; [|exact Hs]. simpl.
    destruct (spell_done c2 a) as [d|x] eqn:Hd; [|exact Hs].
    apply Hk. split; [exact Hs|by apply Hinv].
  - destruct (spell_eta (chain w) a) as [e|x] eqn:He; [|exact Hs]. simpl.
    destruct (spell_done c3 a) as [d|x] eqn:Hd; [|exact Hs].
    apply Hk. split; [exact Hs|by apply Hinv].
  - destruct (spell_eta (chain w) a) as [e|x] eqn:He; [|exact Hs]. simpl.
    destruct (spell_done (chain w) a) as [d|x] eqn:Hd; [|exact Hs].
    apply Hk. split; [exact Hs|by apply Hinv].
Qed.

Tactic Notation "still_keep" "as" ident(x) :=
  eapply triple_bind;
    [apply triple_still_keep;
       [first [apply keeps_read|apply keeps_db_hat
              |apply keeps_get_eta_in_unix]
       |first [done|by intros ? [? _]]]
    |intros x].

Ltac log_keep :=
  let u := fresh "u" in
  eapply triple_bind; [apply triple_info; by intros|intros u].

Ltac move_keep :=
  let u := fresh "u" in
  eapply triple_bind; [apply triple_moved_to_keep; by intros|intros u].

(** The reconcile step, from the place 1 on. *)
Lemma update_db_hat_live_consistent node n :
  triple (fun w => consistent w /\
                   pair_calm (default (chain w) (node 1%nat))
                             (node 2%nat) (node 3%nat))
         (update_db_hat_live node n) (fun _ => consistent) consistent.
Proof.
  unfold update_db_hat_live.
  eapply triple_bind with
    (R := fun _ w => consistent w /\
                     pair_calm (chain w) (node 2%nat) (node 3%nat));
    [|intros v0].
  { apply triple_moved_to. intros w [Hs Hcalm].
    by destruct (node 1%nat). }
  still_keep as a. still_keep as h0.
  eapply triple_bind with (R := fun _ => consistent);
    [|intros v1; apply update_block_consistent].
  destruct (negb _); [|apply triple_ret; by intros w [? _]].
  apply (fresh_record_consistent (node 2%nat) (node 3%nat) a
           (fun eta done =>
              db_update
                (hat_fields (mkHat (Some a) (Some eta) (Some done))) 2)).
  intros z d. apply update_hat_consistent. intros w [Hw Hi].
  split; [done|by left].
Qed.

Lemma update_db_hat_eat_consistent e :
  0 < e ->
  triple consistent (update_db_hat_eat e) (fun _ => consistent) consistent.
Proof.
  intros He. unfold update_db_hat_eat.
  eapply triple_bind;
    [apply triple_still_keep; [apply keeps_db_hat|done]|intros h].
  apply update_hat_consistent. intros w Hw. split; [done|].
  left. intros [= ->]. lia.
Qed.

Lemma update_db_hat_done_consistent h0 b :
  get_eta h0 <> 0 ->
  triple (fun w => consistent w /\ cached_hat w = Some h0)
         (update_db_hat_done b) (fun _ => consistent) consistent.
Proof.
  intros He. unfold update_db_hat_done.
  eapply triple_bind;
    [apply triple_still; [apply keeps_db_hat|by intros w [? _]]|intros h].
  apply update_hat_consistent. intros w [[Hw Hh0] [_ Hh]%db_hat_inv_Ok].
  split; [done|]. left. intros Hz. simpl in Hz.
  assert (h = h0) as -> by congruence.
  unfold get_eta in He. by rewrite Hz in He.
Qed.

Lemma triple_transact (P E : World -> Prop) t :
  (forall tx c w, P w -> P (set_chain c (add_tx tx w))) ->
  (forall tx c w, P w -> E (set_chain c (add_tx tx w))) ->
  triple P (transact T t) (fun _ => P) E.
Proof.
  intros HP HE w Hw. unfold transact.
  destruct (T t (chain (add_tx t w))) as [[r|e] c];
    [by apply HP|by apply HE].
Qed.

Lemma check_hat_live_consistent node :
  triple (fun w => consistent w /\ untorn (chain w) node)
         (check_hat_live T node) (fun _ => consistent) consistent.
Proof.
  unfold check_hat_live.
  eapply triple_bind with
    (R := fun _ w => consistent w /\
                     pair_calm (default (chain w) (node 1%nat))
                               (node 2%nat) (node 3%nat));
    [|intros v0].
  { apply triple_moved_to. intros w [Hs Hcalm].
    unfold untorn in Hcalm. simpl in Hcalm. unfold pair_calm.
    by destruct (node 0%nat). }
  still_keep as number. log_keep.
  eapply triple_bind;
    [by apply update_db_hat_live_consistent|intros v1].
  still_keep as h. cbv zeta.
  destruct (_ || _); [by apply triple_ret|].
  move_keep. still_keep as c.
  destruct (negb _); [apply triple_info; by intros|].
  destruct (_ && _); [|by apply triple_ret].
  move_keep. still_keep as z.
  destruct (0 <? z) eqn:Hz.
  - log_keep. apply update_db_hat_eat_consistent. lia.
  - log_keep. move_keep.
    eapply triple_bind; [apply triple_transact; by intros|intros v2].
    move_keep. still_keep as z'.
    destruct (0 <? z') eqn:Hz'; [|by apply triple_ret].
    apply update_db_hat_eat_consistent. lia.
Qed.

Lemma check_eta_live_consistent node :
  triple consistent (check_eta_live T node) (fun _ => consistent) consistent.
Proof.
  unfold check_eta_live.
  eapply triple_bind;
    [apply triple_still; [apply keeps_db_hat|done]|intros h].
  apply (triple_pre _ (fun w => consistent w /\ cached_hat w = Some h));
    [by intros w [? [_ ?]%db_hat_inv_Ok]|].
  cbv zeta.
  destruct (_ || _ || _) eqn:Hguard.
  { apply triple_ret. by intros w [? _]. }
  apply orb_false_elim in Hguard as [_ He%Z.eqb_neq].
  move_keep. still_keep as number. move_keep. still_keep as block.
  destruct block as [b|];
    [|eapply triple_post; [apply triple_warning; by intros|by intros ? w [? _]]].
  log_keep.
  destruct (_ <? _); [apply triple_ret; by intros w [? _]|].
  move_keep. still_keep as c.
  destruct c; [|by intros w [? _]].
  log_keep. move_keep.
  eapply triple_bind;
    [apply (triple_transact
              (fun w => consistent w /\ cached_hat w = Some h));
       [by intros|by intros ? ? ? [? _]]
    |intros r].
  destruct r as [[[]]|]; first
    [ by apply update_db_hat_done_consistent
    | apply triple_ret; by intros w [? _] ].
Qed.

Lemma process_block_live_consistent node w :
  untorn (chain w) node ->
  consistent w -> consistent (process_block_live T node w).2.
Proof.
  intros Hg Hw. unfold process_block_live, bind at 1 2. simpl.
  destruct (_ <=? _); [done|].
  unfold bind.
  generalize (check_hat_live_consistent node w (conj Hw Hg)).
  destruct (check_hat_live T node w) as [[[]|e] w1]; [|done].
  apply triple_run, check_eta_live_consistent.
Qed.

(** *** Bootstrap *)

(** [create] from the point where the empty store is open. *)
Lemma create_tail w t :
  isfile (fs w) && access_R_OK (fs w) = false ->
  tinydb_open (fs w) = Ok t ->
  create w =
    (let* block_number := read blockNumber in
     db_insert (block_fields block_number) ;;
     let* hat := read get_hat in
     let* ed :=
       (if negb (String.eqb hat zero_address) then
          let* eta := get_eta_in_unix hat in
          let* done := read (fun c => spell_done c hat) in
          ret (eta, done)
        else ret (0, true)) in
     print (InitHat hat ed.1 ed.2) ;;
     db_insert (hat_fields (mkHat (Some hat) (Some ed.1) (Some ed.2))) ;;
     ret "Either file is missing or is not readable, creating simple database"%string)
      (set_db t w).
Proof.
  intros Hf Ht. unfold create.
  rewrite (bind_Ok _ _ w (fs w) w) by done.
  rewrite Hf. cbv zeta.
  rewrite (bind_Ok _ _ w t w) by (unfold lift; by rewrite Ht).
  by rewrite (bind_Ok _ _ w tt (set_db t w)).
Qed.

Lemma create_live_consistent node w :
  isfile (fs w) && access_R_OK (fs w) = false ->
  tinydb_open (fs w) = Ok ∅ ->
  untorn (chain w) node ->
  consistent (create_live node w).2.
Proof.
  intros Hf Ht Hg. unfold create_live.
  rewrite (bind_Ok _ _ w (fs w) w) by done.
  rewrite Hf. cbv zeta.
  rewrite (bind_Ok _ _ w ∅ w) by (unfold lift; by rewrite Ht).
  rewrite (bind_Ok _ _ w tt (set_db ∅ w)) by done.
  apply (triple_run (fun w => consistent w /\ untorn (chain w) node)).
  2:{ split; [|done]. apply consistent_set_db.
      intros k d h Hk. by rewrite lookup_empty in Hk. }
  eapply triple_bind with
    (R := fun _ w => consistent w /\
                     pair_calm (default (chain w) (node 1%nat))
                               (node 2%nat) (node 3%nat));
    [|intros v0].
  { apply triple_moved_to. intros w0 [Hs Hcalm].
    unfold untorn in Hcalm. simpl in Hcalm. unfold pair_calm.
    by destruct (node 0%nat). }
  still_keep as number.
  eapply triple_bind with
    (R := fun _ w => consistent w /\
                     pair_calm (default (chain w) (node 1%nat))
                               (node 2%nat) (node 3%nat));
    [|intros v1].
  { apply triple_db_insert; [|by intros ? [? _]].
    intros w0 t [Hs Hcalm] Hdb. split; [|done]. apply consistent_set_db.
    apply table_inv_insert; [by apply Hs|done]. }
  eapply triple_bind with
    (R := fun _ w => consistent w /\
                     pair_calm (chain w) (node 2%nat) (node 3%nat));
    [|intros v2].
  { apply triple_moved_to. intros w0 [Hs Hcalm].
    by destruct (node 1%nat). }
  still_keep as a.
  eapply triple_bind with
    (R := fun ed w => consistent w /\
                      record_inv (mkHat (Some a) (Some ed.1) (Some ed.2)));
    [|intros ed].
  - destruct (negb _) eqn:Ha.
    + apply (fresh_record_consistent (node 2%nat) (node 3%nat) a
               (fun eta done => ret (eta, done))).
      intros z d. apply triple_ret. intros w0 [Hw0 Hi].
      split; [done|by left].
    + apply triple_ret. intros w0 [Hw0 _]. split; [done|]. right.
      apply negb_false_iff, String.eqb_eq in Ha. by subst a.
  - eapply triple_bind; [apply triple_print; by intros|intros v3].
    eapply triple_bind with (R := fun _ => consistent); [|intros v4].
    + apply triple_db_insert; [|by intros ? [? _]].
      intros w0 t [Hs Hi] Hdb. apply consistent_set_db.
      apply table_inv_insert; [by apply Hs|]. by intros h [= <-].
    + by apply triple_ret.
Qed.

(** A restart takes the store as the file holds it. *)
Lemma create_live_restart node w t :
  isfile (fs w) && access_R_OK (fs w) = true ->
  tinydb_open (fs w) = Ok t ->
  create_live node w
  = (Ok "Simple database exists and is readable"%string, set_db t w).
Proof.
  intros Hf Ht. unfold create_live.
  rewrite (bind_Ok _ _ w (fs w) w) by done.
  rewrite Hf. cbv zeta.
  by rewrite (bind_Ok _ _ w t w) by (unfold lift; by rewrite Ht).
Qed.

(** *** With a node that stays where it is

    The functions written for a node that moves are the functions of the
    keeper when it does not. *)

Lemma create_live_still : create_live still = create.
Proof. reflexivity. Qed.

Lemma update_db_hat_live_still n :
  update_db_hat_live still n = update_db_hat n.
Proof. reflexivity. Qed.

Lemma check_hat_live_still : check_hat_live T still = check_hat T.
Proof. reflexivity. Qed.

Lemma check_eta_live_still : check_eta_live T still = check_eta T.
Proof. reflexivity. Qed.

Lemma process_block_live_still : process_block_live T still = process_block T.
Proof. reflexivity. Qed.

(** So the runs of the functions of the keeper, with a node that satisfies
    its invariant and moves only through the transactions of the keeper,
    are among the runs that [reachable] follows. *)
Lemma reachable_plain w :
  reachable T w -> chain_inv (chain w) ->
  reachable T (check_hat T w).2 /\
  reachable T (check_eta T w).2 /\
  reachable T (process_block T w).2.
Proof.
  intros Hr Hc. split; [|split].
  - by apply (reach_hat T w still).
  - by apply (reach_eta T w still).
  - by apply (reach_block T w still).
Qed.

(** C6, as the code has it. In every world that the keeper reaches, from a
    bootstrap on an empty store through monitor runs, block callbacks and
    restarts, whatever the node answers and whether the runs return or
    raise, every stored leader record has done false when its eta is 0, or
    is the record of the null leader that a bootstrap stores: the null
    address, eta 0, done true. The one thing asked of the node is that the
    two reads of a fresh record are not torn: an action that it reports
    unscheduled when the eta is read is not reported done when, one call
    later, the done flag is read. *)
Theorem stored_records_inv w :
  reachable T w ->
  stored_inv record_inv w.
Proof.
  intros Hr.
  induction Hr as [w node Hf Ht Hg|w t w' node _ IH Hdb Hf Ht
                  |w node _ IH Hg|w node _ IH|w node _ IH Hg|w c _ IH].
  - by apply create_live_consistent.
  - rewrite (create_live_restart node w' t) by done.
    apply consistent_set_db. by apply IH.
  - apply (triple_run (fun w => consistent w /\ untorn (chain w) node));
      [|done].
    eapply triple_pre; [|apply check_hat_live_consistent]. done.
  - by apply (triple_run consistent), IH; apply check_eta_live_consistent.
  - by apply process_block_live_consistent.
  - exact IH.
Qed.



(** ** The store at startup *)

Lemma insert_first d : TinyDB.insert d ∅ = {[ 1 := d ]}.
Proof.
  unfold TinyDB.insert, TinyDB.next_id.
  by rewrite map_to_list_empty, insert_empty.
Qed.

Lemma insert_second d1 d2 :
  TinyDB.insert d2 {[ 1 := d1 ]} = <[ 2 := d2 ]> {[ 1 := d1 ]}.
Proof.
  unfold TinyDB.insert, TinyDB.next_id. by rewrite map_to_list_singleton.
Qed.

Lemma db_hat_uncached w :
  cached_hat w = None ->
  db_hat w
  = (Raise match db w with
           | None => AttributeError
           | Some t => match t !! 2 with
                       | None => TypeError
                       | Some _ => KeyError
                       end
           end, w).
Proof.
  unfold cached_hat, db_hat, bind, the_db, TinyDB.get.
  destruct (db w) as [t|]; [|done].
  destruct (t !! 2) as [d|]; [|done].
  by intros ->.
Qed.

(** [create] on an empty store, when the node answers. *)
Lemma create_fresh_run w number a e d :
  isfile (fs w) && access_R_OK (fs w) = false ->
  tinydb_open (fs w) = Ok ∅ ->
  blockNumber (chain w) = Ok number ->
  get_hat (chain w) = Ok a ->
  spell_eta (chain w) a = Ok e ->
  spell_done (chain w) a = Ok d ->
  let record := if String.eqb a zero_address
                then mkHat (Some a) (Some 0) (Some true)
                else mkHat (Some a) (Some (Z.of_N e)) (Some d) in
  let line := if String.eqb a zero_address then InitHat a 0 true
              else InitHat a (Z.of_N e) d in
  create w
  = (Ok "Either file is missing or is not readable, creating simple database"%string,
     set_db (<[2 := hat_fields record]> {[ 1 := block_fields number ]})
            (add_event (Stdout line) w)).
Proof.
  intros Hf Ht Hn Ha He Hd record line.
  rewrite (create_tail w ∅) by done.
  set (w0 := set_db ∅ w).
  rewrite (bind_Ok _ _ w0 number w0) by (unfold read; simpl; by rewrite Hn).
  set (w1 := set_db (TinyDB.insert (block_fields number) ∅) w0).
  rewrite (bind_Ok _ _ w0 tt w1) by done.
  rewrite (bind_Ok _ _ w1 a w1) by (unfold read; simpl; by rewrite Ha).
  subst record line. destruct (String.eqb a zero_address); simpl.
  - unfold db_insert, bind, the_db, put_db, print, ret. simpl.
    by rewrite insert_first, insert_second.
  - rewrite (bind_Ok _ _ w1 (Z.of_N e, d) w1).
    2:{ unfold get_eta_in_unix, bind, read, ret. subst w1 w0. simpl.
        rewrite He. simpl. by rewrite Hd. }
    unfold db_insert, bind, the_db, put_db, print, ret. simpl.
    by rewrite insert_first, insert_second.
Qed.

(** X1. A bootstrap on an empty store puts the checkpoint in document 1 and
    the leader record in document 2, where the monitors read them: the
    block number of the node, and either the null leader with eta 0 and
    done true or the leader with the eta and the done flag of the node. It
    writes one line to the standard output and submits nothing. *)
Theorem create_bootstrap w number a e d :
  isfile (fs w) && access_R_OK (fs w) = false ->
  tinydb_open (fs w) = Ok ∅ ->
  blockNumber (chain w) = Ok number ->
  get_hat (chain w) = Ok a ->
  spell_eta (chain w) a = Ok e ->
  spell_done (chain w) a = Ok d ->
  exists w',
    create w
    = (Ok "Either file is missing or is not readable, creating simple database"%string,
       w') /\
    checkpoint w' = Some number /\
    cached_hat w'
    = Some (if String.eqb a zero_address
            then mkHat (Some a) (Some 0) (Some true)
            else mkHat (Some a) (Some (Z.of_N e)) (Some d)) /\
    txs w' = txs w /\
    log w'
    = log w ++ [Stdout (if String.eqb a zero_address then InitHat a 0 true
                        else InitHat a (Z.of_N e) d)].
Proof.
  intros Hf Ht Hn Ha He Hd.
  rewrite (create_fresh_run w number a e d) by done.
  eexists. split; [reflexivity|].
  unfold checkpoint, cached_hat, TinyDB.get. simpl.
  by rewrite lookup_insert_ne, lookup_singleton_eq, lookup_insert_eq.
Qed.

(** X2. When the node answers the block number and then fails on the leader,
    the bootstrap raises with a store that holds the checkpoint and no
    leader record; the eta monitor then raises [TypeError] on that store
    and the hat monitor, whatever the node answers, does not return. *)
Theorem create_interrupted w number x :
  isfile (fs w) && access_R_OK (fs w) = false ->
  tinydb_open (fs w) = Ok ∅ ->
  blockNumber (chain w) = Ok number ->
  get_hat (chain w) = Raise x ->
  exists w',
    create w = (Raise x, w') /\
    db w' = Some {[ 1 := block_fields number ]} /\
    cached_hat w' = None /\
    check_eta T w' = (Raise TypeError, w') /\
    (forall c, (check_hat T (set_chain c w')).1 <> Ok tt).
Proof.
  intros Hf Ht Hn Ha.
  rewrite (create_tail w ∅) by done.
  set (w0 := set_db ∅ w).
  rewrite (bind_Ok _ _ w0 number w0) by (unfold read; simpl; by rewrite Hn).
  set (w1 := set_db (TinyDB.insert (block_fields number) ∅) w0).
  rewrite (bind_Ok _ _ w0 tt w1) by done.
  rewrite (bind_Raise _ _ w1 x w1) by (unfold read; simpl; by rewrite Ha).
  assert (db w1 = Some {[ 1 := block_fields number ]}) as Hdb
    by (simpl; by rewrite insert_first).
  assert (forall c, cached_hat (set_chain c w1) = None) as Hnone.
  { intros c. unfold cached_hat. simpl. rewrite insert_first.
    unfold TinyDB.get. by rewrite lookup_singleton_ne. }
  assert (cached_hat w1 = None) as Hnone1 by apply (Hnone (chain w1)).
  exists w1. split; [done|]. split; [done|]. split; [done|]. split.
  - unfold check_eta. rewrite (bind_Raise _ _ w1 TypeError w1); [done|].
    rewrite (db_hat_uncached w1 Hnone1), Hdb.
    by rewrite lookup_singleton_ne.
  - intros c Hok.
    destruct (check_hat T (set_chain c w1)) as [[[]|y] w2] eqn:Hrun; [|done].
    destruct (check_hat_inv_Ok _ _ Hrun) as (n & w3 & Hbn & Hu).
    unfold update_db_hat in Hu.
    apply bind_inv_Ok in Hu as (a & w4 & Hr & Hu).
    apply read_inv_Ok in Hr as (-> & Hr).
    apply bind_inv_Ok in Hu as (h & w4 & Hh & _).
    apply db_hat_inv_Ok in Hh as (_ & Hh).
    unfold cached_hat in Hh. simpl in Hh. rewrite insert_first in Hh.
    unfold TinyDB.get in Hh. by rewrite lookup_singleton_ne in Hh.
Qed.

(** ** The checkpoint and the reconcile step *)

Lemma db_update_inv_Ok fields k w w' :
  db_update fields k w = (Ok tt, w') ->
  exists t d,
    db w = Some t /\ t !! k = Some d /\
    w' = set_db (<[k := TinyDB.merge_fields fields d]> t) w.
Proof.
  unfold db_update, bind, the_db, lift, put_db, TinyDB.update.
  destruct (db w) as [t|]; [|done].
  destruct (t !! k) as [d|] eqn:Hk; [|done].
  intros [= <-]. by exists t, d.
Qed.

Lemma db_update_run fields k w t d :
  db w = Some t -> t !! k = Some d ->
  db_update fields k w
  = (Ok tt, set_db (<[k := TinyDB.merge_fields fields d]> t) w).
Proof.
  intros Ht Hk. unfold db_update, bind, the_db, lift, put_db, TinyDB.update.
  by rewrite Ht, Hk.
Qed.

Lemma db_update_missing fields k w t :
  db w = Some t -> t !! k = None ->
  db_update fields k w = (Raise KeyError, w).
Proof.
  intros Ht Hk. unfold db_update, bind, the_db, lift, put_db, TinyDB.update.
  by rewrite Ht, Hk.
Qed.

Lemma keeps_checkpoint_hat h : keeps checkpoint (db_update (hat_fields h) 2).
Proof.
  intros w. unfold db_update, bind, the_db, lift, put_db, TinyDB.update.
  destruct (db w) as [t|] eqn:Ht; [|done].
  destruct (t !! 2) as [d|]; [|done]. simpl.
  unfold checkpoint, TinyDB.get. simpl. rewrite Ht.
  by rewrite lookup_insert_ne.
Qed.

Lemma keeps_checkpoint_eat e : keeps checkpoint (update_db_hat_eat e).
Proof.
  unfold update_db_hat_eat. apply keeps_bind; [apply keeps_db_hat|].
  intros h. apply keeps_checkpoint_hat.
Qed.

Lemma keeps_checkpoint_done b : keeps checkpoint (update_db_hat_done b).
Proof.
  unfold update_db_hat_done. apply keeps_bind; [apply keeps_db_hat|].
  intros h. apply keeps_checkpoint_hat.
Qed.

Lemma update_db_hat_checkpoint n w w1 :
  update_db_hat n w = (Ok tt, w1) -> checkpoint w1 = Some n.
Proof.
  unfold update_db_hat. intros H.
  apply bind_inv_Ok in H as (a & w2 & _ & H).
  apply bind_inv_Ok in H as (h & w3 & _ & H).
  apply bind_inv_Ok in H as ([] & w4 & _ & H).
  apply db_update_inv_Ok in H as (t & d & Ht & Hd & ->).
  unfold checkpoint, TinyDB.get. simpl. by rewrite lookup_insert_eq.
Qed.

(** X4. Once the reconcile step of the hat monitor has returned, the
    checkpoint of the store is the block number that the node gave, and it
    stays so to the end of the callback, however the guards, the
    submissions and the later reads turn out. *)
Theorem process_block_checkpoint w number w1 :
  errors w < max_errors w ->
  blockNumber (chain w) = Ok number ->
  update_db_hat number (add_event (LogInfo (CheckingHat number)) w)
  = (Ok tt, w1) ->
  checkpoint (check_hat T w).2 = Some number /\
  checkpoint (process_block T w).2 = Some number.
Proof.
  intros Hlt Hn Hu.
  assert (checkpoint (check_hat T w).2 = Some number) as Hhat.
  { rewrite (check_hat_after_reconcile checkpoint w number w1); try done.
    - by apply (update_db_hat_checkpoint number
                  (add_event (LogInfo (CheckingHat number)) w) w1).
    - apply keeps_checkpoint_eat. }
  split; [done|].
  rewrite process_block_run, (proj2 (Z.leb_gt _ _) Hlt).
  destruct (check_hat T w) as [[[]|x] w2]; [|done].
  rewrite <- Hhat. apply keeps_check_eta; try done.
  apply keeps_checkpoint_done.
Qed.

Lemma set_db_twice t t' w : set_db t (set_db t' w) = set_db t w.
Proof. done. Qed.

(** X5. The reconcile step is idempotent: run again on the world it has
    just left, with the node unchanged, it returns and changes nothing. *)
Theorem update_db_hat_idempotent n w w1 :
  update_db_hat n w = (Ok tt, w1) ->
  update_db_hat n w1 = (Ok tt, w1).
Proof.
  intros Hrun.
  assert (chain w1 = chain w) as Hc.
  { change w1 with (Ok tt, w1).2. rewrite <- Hrun.
    by apply keeps_update_db_hat. }
  pose proof Hrun as H. unfold update_db_hat in H.
  apply bind_inv_Ok in H as (a & w2 & Ha & H).
  apply read_inv_Ok in Ha as (-> & Ha).
  apply bind_inv_Ok in H as (h0 & w3 & Hh0 & H).
  apply db_hat_inv_Ok in Hh0 as (-> & Hh0).
  apply bind_inv_Ok in H as ([] & w4 & _ & H).
  apply db_update_inv_Ok in H as (t & d & Ht & Hd & Hw1).
  destruct (update_db_hat_spec n w w1 a h0 Ha Hh0 Hrun) as (h1 & Hh1 & Hcase).
  assert (address h1 = Some a) as Ha1.
  { destruct Hcase as [[? ->]|(_ & e & b & _ & _ & ->)]; done. }
  unfold update_db_hat.
  rewrite (bind_Ok _ _ w1 a w1) by (unfold read; by rewrite Hc, Ha).
  rewrite (bind_Ok _ _ _ _ _ (db_hat_cached _ _ Hh1)).
  rewrite (bool_decide_eq_true_2 _ Ha1). simpl.
  rewrite (bind_Ok _ _ w1 tt w1) by done.
  rewrite (db_update_run (block_fields n) 1 w1
             (<[1 := TinyDB.merge_fields (block_fields n) d]> t)
             (TinyDB.merge_fields (block_fields n) d));
    [|by rewrite Hw1|by rewrite lookup_insert_eq].
  f_equal. rewrite insert_insert_eq. rewrite Hw1 at 2.
  by rewrite Hw1, set_db_twice.
Qed.

(** X6. The reconcile step is not atomic: when the leader changed and the
    store has no checkpoint document, it raises [KeyError] after it has
    replaced the leader record. *)
Theorem update_db_hat_no_checkpoint n w t h0 a e d :
  db w = Some t -> t !! 1 = None ->
  cached_hat w = Some h0 ->
  get_hat (chain w) = Ok a -> address h0 <> Some a ->
  spell_eta (chain w) a = Ok e ->
  spell_done (chain w) a = Ok d ->
  exists w',
    update_db_hat n w = (Raise KeyError, w') /\
    cached_hat w' = Some (mkHat (Some a) (Some (Z.of_N e)) (Some d)) /\
    checkpoint w' = None.
Proof.
  intros Ht H1 Hh Ha Hne He Hd.
  unfold update_db_hat.
  rewrite (bind_Ok _ _ w a w) by (unfold read; by rewrite Ha).
  rewrite (bind_Ok _ _ _ _ _ (db_hat_cached _ _ Hh)).
  rewrite (bool_decide_eq_false_2 _ Hne). simpl.
  destruct (db_update_hat w h0 (mkHat (Some a) (Some (Z.of_N e)) (Some d)) Hh)
    as (w' & Hrun & Hh').
  pose proof Hrun as (t0 & d0 & Ht0 & Hd0 & Hw')%db_update_inv_Ok.
  assert (t0 = t) as -> by congruence.
  rewrite (bind_Ok _ _ w tt w').
  2:{ rewrite (bind_Ok _ _ w (Z.of_N e) w)
        by (unfold get_eta_in_unix, bind, read; by rewrite He).
      by rewrite (bind_Ok _ _ w d w) by (unfold read; by rewrite Hd). }
  assert (exists t', db w' = Some t' /\ t' !! 1 = None) as (t' & Ht' & H1').
  { eexists. split; [by rewrite Hw'|]. by rewrite lookup_insert_ne. }
  exists w'. split; [|split; [done|]].
  - by apply (db_update_missing _ 1 w' t').
  - unfold checkpoint, TinyDB.get. by rewrite Ht', H1'.
Qed.

(** ** The partial updates *)

(** X7. The two partial updates commute: in either order they leave the
    same world, whose leader record has the old address, the new eta and
    the new done flag, and whose checkpoint is untouched. *)
Theorem partial_updates_commute w h e b :
  cached_hat w = Some h ->
  exists w',
    (update_db_hat_eat e ;; update_db_hat_done b) w = (Ok tt, w') /\
    (update_db_hat_done b ;; update_db_hat_eat e) w = (Ok tt, w') /\
    cached_hat w' = Some (mkHat (address h) (Some e) (Some b)) /\
    checkpoint w' = checkpoint w.
Proof.
  intros Hh.
  assert (exists t d, db w = Some t /\ t !! 2 = Some d /\ hat d = Some h)
    as (t & d & Ht & Hd & Hhd).
  { unfold cached_hat, TinyDB.get in Hh.
    destruct (db w) as [t|]; [|done].
    destruct (t !! 2) as [d|] eqn:Hd; [|done]. by exists t, d. }
  set (final := mkDoc (last_block_checked d)
                      (Some (mkHat (address h) (Some e) (Some b)))).
  exists (set_db (<[2 := final]> t) w).
  assert (forall h1 h2 w1,
            w1 = set_db (<[2 := mkDoc (last_block_checked d) (Some h1)]> t) w ->
            db_update (hat_fields h2) 2 w1
            = (Ok tt,
               set_db (<[2 := mkDoc (last_block_checked d) (Some h2)]> t) w))
    as Hsecond.
  { intros h1 h2 w1 ->.
    rewrite (db_update_run _ 2 _ (<[2 := mkDoc (last_block_checked d)
                                           (Some h1)]> t)
               (mkDoc (last_block_checked d) (Some h1)));
      [|done|by rewrite lookup_insert_eq].
    by rewrite insert_insert_eq, set_db_twice. }
  assert (forall h1, cached_hat
            (set_db (<[2 := mkDoc (last_block_checked d) (Some h1)]> t) w)
          = Some h1) as Hread.
  { intros h1. unfold cached_hat, TinyDB.get. simpl.
    by rewrite lookup_insert_eq. }
  split; [|split; [|split]].
  - rewrite (bind_Ok _ _ w tt
               (set_db (<[2 := mkDoc (last_block_checked d)
                                (Some (mkHat (address h) (Some e) (done h)))]> t)
                       w)).
    2:{ unfold update_db_hat_eat.
        rewrite (bind_Ok _ _ _ _ _ (db_hat_cached _ _ Hh)).
        by rewrite (db_update_run _ 2 w t d). }
    unfold update_db_hat_done.
    rewrite (bind_Ok _ _ _ _ _ (db_hat_cached _ _ (Hread _))).
    by apply (Hsecond (mkHat (address h) (Some e) (done h))).
  - rewrite (bind_Ok _ _ w tt
               (set_db (<[2 := mkDoc (last_block_checked d)
                                (Some (mkHat (address h) (eta h) (Some b)))]> t)
                       w)).
    2:{ unfold update_db_hat_done.
        rewrite (bind_Ok _ _ _ _ _ (db_hat_cached _ _ Hh)).
        by rewrite (db_update_run _ 2 w t d). }
    unfold update_db_hat_eat.
    rewrite (bind_Ok _ _ _ _ _ (db_hat_cached _ _ (Hread _))).
    by apply (Hsecond (mkHat (address h) (eta h) (Some b))).
  - apply Hread.
  - unfold checkpoint, TinyDB.get. simpl. rewrite Ht.
    by rewrite lookup_insert_ne.
Qed.

(** X8. On a store without a leader record nothing creates one: the two
    partial updates and the eta monitor raise, each the same exception
    ([AttributeError] with no store, [TypeError] with no document 2,
    [KeyError] with no hat key in it), and leave the world as it was. *)
Theorem leader_record_missing w e b :
  cached_hat w = None ->
  let x := match db w with
           | None => AttributeError
           | Some t => match t !! 2 with
                       | None => TypeError
                       | Some _ => KeyError
                       end
           end in
  update_db_hat_eat e w = (Raise x, w) /\
  update_db_hat_done b w = (Raise x, w) /\
  check_eta T w = (Raise x, w).
Proof.
  intros Hh x. pose proof (db_hat_uncached w Hh) as Hdb. fold x in Hdb.
  repeat split.
  - unfold update_db_hat_eat. by apply bind_Raise.
  - unfold update_db_hat_done. by apply bind_Raise.
  - unfold check_eta. by apply bind_Raise.
Qed.

(** ** What the hat monitor submits *)

Lemma read_run {A} (g : Chain -> result A) w r :
  g (chain w) = r -> read g w = (r, w).
Proof. unfold read. by intros ->. Qed.

Lemma get_eta_in_unix_run a w e :
  spell_eta (chain w) a = Ok e -> get_eta_in_unix a w = (Ok (Z.of_N e), w).
Proof. intros He. unfold get_eta_in_unix, bind, read. by rewrite He. Qed.

Lemma get_eta_in_unix_raise a w x :
  spell_eta (chain w) a = Raise x -> get_eta_in_unix a w = (Raise x, w).
Proof. intros He. unfold get_eta_in_unix, bind, read. by rewrite He. Qed.

Lemma guards_pass_inv h :
  String.eqb (get_address h) zero_address || done_truthy h = false ->
  address h = Some (get_address h) /\ get_address h <> zero_address /\
  done h <> Some true.
Proof.
  intros [Ha Hd]%orb_false_elim. apply String.eqb_neq in Ha.
  split; [|split; [done|]].
  - unfold get_address in *. by destruct (address h).
  - unfold done_truthy in Hd. intros Ht. by rewrite Ht in Hd.
Qed.

Lemma unscheduled_inv h :
  done_is_False h && (get_eta h =? 0) = true ->
  done h = Some false /\ get_eta h = 0.
Proof.
  intros [Hd He]%andb_true_iff. apply Z.eqb_eq in He. split; [|done].
  unfold done_is_False in Hd. by destruct (done h) as [[]|].
Qed.

(** The hat monitor from its guards on, in the world its reconcile step
    left. *)
Lemma check_hat_from_guards w number w1 h :
  blockNumber (chain w) = Ok number ->
  update_db_hat number (add_event (LogInfo (CheckingHat number)) w)
  = (Ok tt, w1) ->
  cached_hat w1 = Some h ->
  check_hat T w =
    (if String.eqb (get_address h) zero_address || done_truthy h then ret tt
     else
       let* c := read (fun c => is_contract_at c (get_address h)) in
       if negb c then info (NotAContract h)
       else
         if done_is_False h && (get_eta h =? 0) then
           let* spell_eta := get_eta_in_unix (get_address h) in
           if 0 <? spell_eta then
             info (AlreadyScheduled h spell_eta) ;;
             update_db_hat_eat spell_eta
           else
             info (Scheduling h) ;;
             transact T (Schedule (get_address h)) ;;
             let* spell_eta := get_eta_in_unix (get_address h) in
             if 0 <? spell_eta then update_db_hat_eat spell_eta
             else ret tt
         else ret tt) w1.
Proof.
  intros Hn Hu Hh. unfold check_hat.
  by erewrite check_hat_reconciled by (done || (intros; reflexivity)).
Qed.

(** X9. The hat monitor submits at most one transaction, and only a
    schedule: when it submits, its reconcile step has returned, and the
    record it then read has an address other than the null address, done
    false and eta 0, the address has code, and the node has just answered
    eta 0 for the action. *)
Theorem check_hat_schedules_only w :
  txs (check_hat T w).2 = txs w \/
  exists number w1 h a,
    blockNumber (chain w) = Ok number /\
    update_db_hat number (add_event (LogInfo (CheckingHat number)) w)
    = (Ok tt, w1) /\
    cached_hat w1 = Some h /\ address h = Some a /\ a <> zero_address /\
    done h = Some false /\ get_eta h = 0 /\
    is_contract_at (chain w) a = Ok true /\
    spell_eta (chain w) a = Ok 0%N /\
    txs (check_hat T w).2 = txs w ++ [Schedule a].
Proof.
  destruct (blockNumber (chain w)) as [number|x] eqn:Hn.
  2:{ left. unfold check_hat. by rewrite (bind_Raise _ _ w x w (read_run _ _ _ Hn)). }
  set (w0 := add_event (LogInfo (CheckingHat number)) w).
  destruct (update_db_hat number w0) as [[[]|x] w1] eqn:Hu.
  2:{ left. unfold check_hat.
      rewrite (bind_Ok _ _ w number w (read_run _ _ _ Hn)).
      rewrite (bind_Ok _ _ w tt w0) by done.
      rewrite (bind_Raise _ _ _ _ _ Hu). simpl.
      change w1 with (Raise (A:=unit) x, w1).2. rewrite <- Hu.
      by rewrite keeps_update_db_hat. }
  assert (txs w1 = txs w) as Htx.
  { change w1 with (Ok tt, w1).2. rewrite <- Hu.
    by rewrite keeps_update_db_hat. }
  assert (chain w1 = chain w) as Hch.
  { change w1 with (Ok tt, w1).2. rewrite <- Hu.
    by rewrite keeps_update_db_hat. }
  destruct (cached_hat w1) as [h|] eqn:Hh.
  2:{ left. unfold check_hat.
      rewrite (bind_Ok _ _ w number w (read_run _ _ _ Hn)).
      rewrite (bind_Ok _ _ w tt w0) by done.
      rewrite (bind_Ok _ _ _ _ _ Hu).
      by rewrite (bind_Raise _ _ _ _ _ (db_hat_uncached w1 Hh)). }
  rewrite (check_hat_from_guards w number w1 h) by done.
  destruct (_ || _) eqn:Hg; [by left|].
  destruct (guards_pass_inv h Hg) as (Ha & Hz & Hd).
  set (a := get_address h) in *.
  destruct (is_contract_at (chain w) a) as [c|x] eqn:Hc.
  2:{ left. rewrite <- Hch in Hc.
      by rewrite (bind_Raise _ _ w1 x w1 (read_run _ _ _ Hc)). }
  rewrite (bind_Ok _ _ w1 c w1) by (apply read_run; by rewrite Hch).
  destruct c; simpl; [|by left].
  destruct (_ && _) eqn:Hun; [|by left].
  destruct (unscheduled_inv h Hun) as (Hdf & He0).
  destruct (spell_eta (chain w) a) as [e|x] eqn:He.
  2:{ left. rewrite <- Hch in He.
      by rewrite (bind_Raise _ _ w1 x w1 (get_eta_in_unix_raise _ _ _ He)). }
  rewrite (bind_Ok _ _ w1 (Z.of_N e) w1)
    by (apply get_eta_in_unix_run; by rewrite Hch).
  destruct (0 <? Z.of_N e) eqn:Hpos.
  { left. rewrite keeps_after; [exact Htx|].
    intros ?. by apply keeps_update_db_hat_eat. }
  right. exists number, w1, h, a.
  assert (e = 0%N) as -> by (apply Z.ltb_ge in Hpos; lia).
  repeat split; try done.
  rewrite (bind_Ok _ _ w1 tt (add_event (LogInfo (Scheduling h)) w1)) by done.
  rewrite keeps_after.
  - rewrite txs_transact. simpl. by rewrite Htx.
  - intros r. apply keeps_bind; [apply keeps_get_eta_in_unix|].
    intros z. destruct (0 <? z); [by apply keeps_update_db_hat_eat|].
    apply keeps_ret.
Qed.

(** X10. When the hat monitor schedules, the receipt plays no part: the
    monitor asks the node again for the eta, on the chain as the submission
    left it, and stores it when it is positive; with eta still 0 the record
    stays unscheduled. When the submission or that read raises, the
    exception leaves the monitor and the record is unchanged. Either way
    the one schedule has been submitted. *)
Theorem check_hat_schedule_outcome w number w1 h a r c :
  blockNumber (chain w) = Ok number ->
  update_db_hat number (add_event (LogInfo (CheckingHat number)) w)
  = (Ok tt, w1) ->
  cached_hat w1 = Some h -> address h = Some a -> a <> zero_address ->
  done h = Some false -> get_eta h = 0 ->
  is_contract_at (chain w) a = Ok true ->
  spell_eta (chain w) a = Ok 0%N ->
  T (Schedule a) (chain w) = (r, c) ->
  txs (check_hat T w).2 = txs w ++ [Schedule a] /\
  (check_hat T w).1
  = match r, spell_eta c a with
    | Raise x, _ => Raise x
    | Ok _, Raise x => Raise x
    | Ok _, Ok _ => Ok tt
    end /\
  cached_hat (check_hat T w).2
  = Some match r, spell_eta c a with
         | Ok _, Ok e' =>
             if 0 <? Z.of_N e'
             then mkHat (address h) (Some (Z.of_N e')) (done h)
             else h
         | _, _ => h
         end.
Proof.
  intros Hn Hu Hh Ha Hz Hd He0 Hc He Ht.
  assert (get_address h = a) as Hga by (unfold get_address; by rewrite Ha).
  assert (txs w1 = txs w) as Htx.
  { change w1 with (Ok tt, w1).2. rewrite <- Hu.
    by rewrite keeps_update_db_hat. }
  assert (chain w1 = chain w) as Hch.
  { change w1 with (Ok tt, w1).2. rewrite <- Hu.
    by rewrite keeps_update_db_hat. }
  rewrite (check_hat_from_guards w number w1 h) by done.
  rewrite Hga, (proj2 (String.eqb_neq _ _) Hz).
  unfold done_truthy, done_is_False. rewrite Hd, He0. simpl.
  rewrite (bind_Ok _ _ w1 true w1) by (apply read_run; by rewrite Hch).
  simpl.
  rewrite (bind_Ok _ _ w1 0 w1)
    by (apply (get_eta_in_unix_run a w1 0%N); by rewrite Hch).
  simpl.
  set (w2 := add_event (LogInfo (Scheduling h)) w1).
  rewrite (bind_Ok _ _ w1 tt w2) by done.
  assert (transact T (Schedule a) w2
          = (r, set_chain c (add_tx (Schedule a) w2))) as Hrun.
  { apply transact_run. simpl. by rewrite Hch. }
  set (w3 := set_chain c (add_tx (Schedule a) w2)) in *.
  assert (cached_hat w3 = Some h) as Hh3 by done.
  assert (txs w3 = txs w ++ [Schedule a]) as Htx3 by (simpl; by rewrite Htx).
  destruct r as [r|x].
  2:{ by rewrite (bind_Raise _ _ _ _ _ Hrun). }
  rewrite (bind_Ok _ _ _ _ _ Hrun).
  destruct (spell_eta c a) as [e'|x] eqn:He'.
  2:{ by rewrite (bind_Raise _ _ w3 x w3 (get_eta_in_unix_raise a w3 x He')). }
  rewrite (bind_Ok _ _ w3 (Z.of_N e') w3 (get_eta_in_unix_run a w3 e' He')).
  destruct (0 <? Z.of_N e'); [|done].
  destruct (update_db_hat_eat_run w3 h (Z.of_N e') Hh3) as (w4 & Hrun4 & Hh4).
  rewrite Hrun4. simpl. split; [|split; [done|by rewrite Hh4, ?Hd]].
  rewrite <- Htx3. change w4 with (Ok tt, w4).2. rewrite <- Hrun4.
  by rewrite keeps_update_db_hat_eat.
Qed.

(** X11. A leader without code is no error for the hat monitor: past the
    guards it logs that the hat is not a contract and returns, with nothing
    submitted and the store as the reconcile step left it. *)
Theorem check_hat_not_a_contract w number w1 h :
  blockNumber (chain w) = Ok number ->
  update_db_hat number (add_event (LogInfo (CheckingHat number)) w)
  = (Ok tt, w1) ->
  cached_hat w1 = Some h ->
  get_address h <> zero_address -> done h <> Some true ->
  is_contract_at (chain w) (get_address h) = Ok false ->
  check_hat T w = (Ok tt, add_event (LogInfo (NotAContract h)) w1) /\
  txs (check_hat T w).2 = txs w /\
  db (check_hat T w).2 = db w1.
Proof.
  intros Hn Hu Hh Hz Hd Hc.
  assert (txs w1 = txs w) as Htx.
  { change w1 with (Ok tt, w1).2. rewrite <- Hu.
    by rewrite keeps_update_db_hat. }
  assert (chain w1 = chain w) as Hch.
  { change w1 with (Ok tt, w1).2. rewrite <- Hu.
    by rewrite keeps_update_db_hat. }
  rewrite (check_hat_from_guards w number w1 h) by done.
  rewrite (proj2 (String.eqb_neq _ _) Hz).
  assert (done_truthy h = false) as ->
    by (unfold done_truthy; by destruct (done h) as [[]|]).
  simpl.
  rewrite (bind_Ok _ _ w1 false w1) by (apply read_run; by rewrite Hch).
  done.
Qed.

(** ** What the eta monitor submits *)

Lemma eta_guards_pass_inv h :
  String.eqb (get_address h) zero_address || done_truthy h
    || (get_eta h =? 0) = false ->
  address h = Some (get_address h) /\ get_address h <> zero_address /\
  done h <> Some true /\ get_eta h <> 0.
Proof.
  intros [Hg He]%orb_false_elim. apply Z.eqb_neq in He.
  destruct (guards_pass_inv h Hg) as (? & ? & ?). done.
Qed.

(** X12. The eta monitor submits at most one transaction, and only a cast:
    when it submits, the cached record has an address other than the null
    address, is not done and has a nonzero eta, the node has returned the
    current block with a timestamp at or past that eta, and the address has
    code. *)
Theorem check_eta_casts_only w :
  txs (check_eta T w).2 = txs w \/
  exists h a number b,
    cached_hat w = Some h /\ address h = Some a /\ a <> zero_address /\
    done h <> Some true /\ get_eta h <> 0 /\
    blockNumber (chain w) = Ok number /\
    getBlock (chain w) number = Ok (Some b) /\
    get_eta h <= timestamp b /\
    is_contract_at (chain w) a = Ok true /\
    txs (check_eta T w).2 = txs w ++ [Cast a].
Proof.
  destruct (cached_hat w) as [h|] eqn:Hh.
  2:{ left. unfold check_eta.
      by rewrite (bind_Raise _ _ _ _ _ (db_hat_uncached w Hh)). }
  destruct (String.eqb (get_address h) zero_address || done_truthy h
            || (get_eta h =? 0)) eqn:Hg.
  { left. unfold check_eta.
    rewrite (bind_Ok _ _ _ _ _ (db_hat_cached _ _ Hh)). by rewrite Hg. }
  destruct (eta_guards_pass_inv h Hg) as (Ha & Hz & Hd & He).
  set (a := get_address h) in *.
  destruct (blockNumber (chain w)) as [number|x] eqn:Hn.
  2:{ left. unfold check_eta.
      rewrite (bind_Ok _ _ _ _ _ (db_hat_cached _ _ Hh)). fold a. rewrite Hg.
      by rewrite (bind_Raise _ _ w x w (read_run _ _ _ Hn)). }
  destruct (getBlock (chain w) number) as [[b|]|x] eqn:Hb.
  2:{ left. unfold check_eta.
      rewrite (bind_Ok _ _ _ _ _ (db_hat_cached _ _ Hh)). fold a. rewrite Hg.
      rewrite (bind_Ok _ _ w number w (read_run _ _ _ Hn)).
      by rewrite (bind_Ok _ _ w None w (read_run _ _ _ Hb)). }
  2:{ left. unfold check_eta.
      rewrite (bind_Ok _ _ _ _ _ (db_hat_cached _ _ Hh)). fold a. rewrite Hg.
      rewrite (bind_Ok _ _ w number w (read_run _ _ _ Hn)).
      by rewrite (bind_Raise _ _ w x w (read_run _ _ _ Hb)). }
  destruct (timestamp b <? get_eta h) eqn:Hdue.
  { left. unfold check_eta.
    rewrite (bind_Ok _ _ _ _ _ (db_hat_cached _ _ Hh)). fold a. rewrite Hg.
    rewrite (bind_Ok _ _ w number w (read_run _ _ _ Hn)).
    rewrite (bind_Ok _ _ w (Some b) w (read_run _ _ _ Hb)).
    rewrite (bind_Ok _ _ w tt (add_event (LogInfo (CheckingScheduled number)) w))
      by done.
    by rewrite Hdue. }
  apply Z.ltb_ge in Hdue.
  rewrite (check_eta_due w h a number b) by done.
  set (w1 := add_event _ w).
  destruct (is_contract_at (chain w) a) as [[]|x] eqn:Hc.
  - right. exists h, a, number, b. repeat split; try done.
    rewrite (bind_Ok _ _ w1 true w1) by by apply read_run.
    rewrite (bind_Ok _ _ w1 tt (add_event (LogInfo (Casting a)) w1)) by done.
    rewrite keeps_after; [by rewrite txs_transact|].
    intros [[[]]|];
      first [by apply keeps_update_db_hat_done | apply keeps_ret].
  - left. by rewrite (bind_Ok _ _ w1 false w1) by by apply read_run.
  - left. by rewrite (bind_Raise _ _ w1 x w1) by by apply read_run.
Qed.

(** The eta monitor up to the outcome of the submission. *)
Lemma check_eta_submitted w h a number b r c :
  cached_hat w = Some h -> address h = Some a ->
  a <> zero_address -> done h <> Some true -> get_eta h <> 0 ->
  blockNumber (chain w) = Ok number ->
  getBlock (chain w) number = Ok (Some b) ->
  get_eta h <= timestamp b ->
  is_contract_at (chain w) a = Ok true ->
  T (Cast a) (chain w) = (r, c) ->
  let w3 := set_chain c
              (add_tx (Cast a)
                 (add_event (LogInfo (Casting a))
                    (add_event (LogInfo (CheckingScheduled number)) w))) in
  check_eta T w
  = match r with
    | Raise x => (Raise x, w3)
    | Ok None => update_db_hat_done true w3
    | Ok (Some rc) =>
        if successful rc then update_db_hat_done true w3 else (Ok tt, w3)
    end.
Proof.
  intros Hh Ha Hz Hd He Hn Hb Hdue Hc Ht w3.
  rewrite (check_eta_due w h a number b) by done.
  set (w1 := add_event _ w).
  rewrite (bind_Ok _ _ w1 true w1) by by apply read_run.
  rewrite (bind_Ok _ _ w1 tt (add_event (LogInfo (Casting a)) w1)) by done.
  set (w2 := add_event _ w1).
  pose proof (transact_run (Cast a) w2 r c Ht) as Hrun.
  destruct r as [[rc|]|x].
  - rewrite (bind_Ok _ _ _ _ _ Hrun). by destruct (successful rc).
  - by rewrite (bind_Ok _ _ _ _ _ Hrun).
  - by rewrite (bind_Raise _ _ _ _ _ Hrun).
Qed.

(** X13. Casting is idempotent: once a cast has come back with no receipt or
    a successful one, the eta monitor returns at once on every later
    invocation, whatever the node answers then. *)
Theorem check_eta_casts_once w h a number b r c :
  cached_hat w = Some h -> address h = Some a ->
  a <> zero_address -> done h <> Some true -> get_eta h <> 0 ->
  blockNumber (chain w) = Ok number ->
  getBlock (chain w) number = Ok (Some b) ->
  get_eta h <= timestamp b ->
  is_contract_at (chain w) a = Ok true ->
  T (Cast a) (chain w) = (Ok r, c) ->
  r <> Some (mkReceipt false) ->
  exists w',
    check_eta T w = (Ok tt, w') /\
    forall c', check_eta T (set_chain c' w') = (Ok tt, set_chain c' w').
Proof.
  intros Hh Ha Hz Hd He Hn Hb Hdue Hc Ht Hr.
  rewrite (check_eta_submitted w h a number b (Ok r) c) by done.
  set (w3 := set_chain c _).
  assert (cached_hat w3 = Some h) as Hh3 by done.
  destruct (update_db_hat_done_run w3 h true Hh3) as (w' & Hrun & Hh').
  exists w'. split.
  { destruct r as [[[]]|]; done. }
  intros c'. unfold check_eta.
  rewrite (bind_Ok _ _ (set_chain c' w') _ (set_chain c' w')
             (db_hat_cached (set_chain c' w') _ Hh')).
  simpl. unfold done_truthy. simpl. by rewrite orb_true_r.
Qed.

(** X14. A cast that comes back with a failed receipt is tried again: the
    record is left as it was, and when the node still reports a block at
    or past the eta and code at the address, the next invocation submits
    the cast a second time. *)
Theorem check_eta_retries w h a number b c number' b' :
  cached_hat w = Some h -> address h = Some a ->
  a <> zero_address -> done h <> Some true -> get_eta h <> 0 ->
  blockNumber (chain w) = Ok number ->
  getBlock (chain w) number = Ok (Some b) ->
  get_eta h <= timestamp b ->
  is_contract_at (chain w) a = Ok true ->
  T (Cast a) (chain w) = (Ok (Some (mkReceipt false)), c) ->
  blockNumber c = Ok number' ->
  getBlock c number' = Ok (Some b') ->
  get_eta h <= timestamp b' ->
  is_contract_at c a = Ok true ->
  exists w',
    check_eta T w = (Ok tt, w') /\
    cached_hat w' = Some h /\
    txs (check_eta T w').2 = txs w ++ [Cast a; Cast a].
Proof.
  intros Hh Ha Hz Hd He Hn Hb Hdue Hc Ht Hn' Hb' Hdue' Hc'.
  rewrite (check_eta_submitted w h a number b
             (Ok (Some (mkReceipt false))) c) by done.
  simpl. set (w3 := set_chain c _).
  exists w3. split; [done|]. split; [done|].
  rewrite (check_eta_due w3 h a number' b') by done.
  set (w4 := add_event _ w3).
  rewrite (bind_Ok _ _ w4 true w4) by by apply read_run.
  rewrite (bind_Ok _ _ w4 tt (add_event (LogInfo (Casting a)) w4)) by done.
  rewrite keeps_after.
  - rewrite txs_transact. simpl. by rewrite <- app_assoc.
  - intros [[[]]|];
      first [by apply keeps_update_db_hat_done | apply keeps_ret].
Qed.

(** X15. When the submission of the cast raises, the exception leaves the
    eta monitor: the cast has been handed over, the record is not marked
    done. *)
Theorem check_eta_submission_raises w h a number b x c :
  cached_hat w = Some h -> address h = Some a ->
  a <> zero_address -> done h <> Some true -> get_eta h <> 0 ->
  blockNumber (chain w) = Ok number ->
  getBlock (chain w) number = Ok (Some b) ->
  get_eta h <= timestamp b ->
  is_contract_at (chain w) a = Ok true ->
  T (Cast a) (chain w) = (Raise x, c) ->
  (check_eta T w).1 = Raise x /\
  txs (check_eta T w).2 = txs w ++ [Cast a] /\
  cached_hat (check_eta T w).2 = Some h.
Proof.
  intros Hh Ha Hz Hd He Hn Hb Hdue Hc Ht.
  by rewrite (check_eta_submitted w h a number b (Raise x) c) by done.
Qed.

(** ** Callbacks in sequence *)

Lemma update_db_hat_same n w t d1 h0 a :
  db w = Some t -> t !! 1 = Some d1 ->
  cached_hat w = Some h0 ->
  get_hat (chain w) = Ok a -> address h0 = Some a ->
  exists w1,
    update_db_hat n w = (Ok tt, w1) /\ cached_hat w1 = Some h0.
Proof.
  intros Ht H1 Hh Ha Hsame. unfold update_db_hat.
  rewrite (bind_Ok _ _ w a w) by by apply read_run.
  rewrite (bind_Ok _ _ _ _ _ (db_hat_cached _ _ Hh)).
  rewrite (bool_decide_eq_true_2 _ Hsame). simpl.
  rewrite (bind_Ok _ _ w tt w) by done.
  rewrite (db_update_run _ 1 w t d1) by done.
  eexists. split; [reflexivity|].
  unfold cached_hat, TinyDB.get in *. simpl. rewrite Ht in Hh.
  by rewrite lookup_insert_ne.
Qed.

Lemma update_db_hat_replaces n w t d1 h0 a e d :
  db w = Some t -> t !! 1 = Some d1 ->
  cached_hat w = Some h0 ->
  get_hat (chain w) = Ok a -> address h0 <> Some a ->
  spell_eta (chain w) a = Ok e ->
  spell_done (chain w) a = Ok d ->
  exists w1,
    update_db_hat n w = (Ok tt, w1) /\
    cached_hat w1 = Some (mkHat (Some a) (Some (Z.of_N e)) (Some d)).
Proof.
  intros Ht H1 Hh Ha Hne He Hd. unfold update_db_hat.
  rewrite (bind_Ok _ _ w a w) by by apply read_run.
  rewrite (bind_Ok _ _ _ _ _ (db_hat_cached _ _ Hh)).
  rewrite (bool_decide_eq_false_2 _ Hne). simpl.
  destruct (db_update_hat w h0 (mkHat (Some a) (Some (Z.of_N e)) (Some d)) Hh)
    as (w' & Hrun & Hh').
  pose proof Hrun as (t0 & d0 & Ht0 & Hd0 & Hw')%db_update_inv_Ok.
  assert (t0 = t) as -> by congruence.
  rewrite (bind_Ok _ _ w tt w').
  2:{ rewrite (bind_Ok _ _ w (Z.of_N e) w) by by apply get_eta_in_unix_run.
      by rewrite (bind_Ok _ _ w d w) by by apply read_run. }
  subst w'.
  erewrite (db_update_run _ 1 _ _ d1);
    [|reflexivity|by rewrite lookup_insert_ne].
  eexists. split; [reflexivity|].
  rewrite <- Hh'. unfold cached_hat, TinyDB.get. simpl.
  by rewrite lookup_insert_ne.
Qed.

(** X16. Nothing ever counts an error: over any number of block callbacks,
    with the node changing its answers in between, the error counter and
    its maximum stay what they were, and a keeper that starts below its
    maximum never asks the lifecycle to terminate. *)
Theorem error_budget_never_spent w w' :
  later T w w' ->
  errors w' = errors w /\
  max_errors w' = max_errors w /\
  ((max_errors w <=? errors w) = false -> terminated w' = terminated w).
Proof.
  induction 1 as [|w' _ (He & Hm & Ht)|w' c _ (He & Hm & Ht)]; [done| |done].
  destruct (process_block_keeps_errors w') as [He' Hm'].
  split; [congruence|]. split; [congruence|].
  intros Hlt. rewrite <- (Ht Hlt).
  rewrite process_block_run, Hm, He, Hlt.
  destruct terminated_blind as (? & ? & ? & ?).
  pose proof (keeps_check_hat terminated ltac:(done) ltac:(done) ltac:(done)
                ltac:(done) w') as Hhat.
  destruct (check_hat T w') as [[[]|x] w1]; [|done].
  simpl in Hhat. rewrite <- Hhat.
  apply keeps_check_eta; try done.
  intros b. by apply keeps_update_db_hat_done.
Qed.

(** X17. A leader change is seen by both monitors in the block where it
    happens: when the node reports a new leader with code whose action is
    scheduled, not done and due at the current block, the callback
    replaces the record and casts the new leader in that same callback,
    submitting nothing else. *)
Theorem leader_change_cast_same_block w t d1 h0 number b a e :
  (max_errors w <=? errors w) = false ->
  db w = Some t -> t !! 1 = Some d1 ->
  cached_hat w = Some h0 ->
  blockNumber (chain w) = Ok number ->
  get_hat (chain w) = Ok a -> address h0 <> Some a ->
  a <> zero_address ->
  spell_eta (chain w) a = Ok e -> e <> 0%N ->
  spell_done (chain w) a = Ok false ->
  is_contract_at (chain w) a = Ok true ->
  getBlock (chain w) number = Ok (Some b) ->
  Z.of_N e <= timestamp b ->
  txs (process_block T w).2 = txs w ++ [Cast a] /\
  cached_address (process_block T w).2 = Some a.
Proof.
  intros Hlt Ht H1 Hh Hn Ha Hne Hz He He0 Hd Hc Hb Hdue.
  set (w0 := add_event (LogInfo (CheckingHat number)) w).
  destruct (update_db_hat_replaces number w0 t d1 h0 a e false)
    as (w1 & Hu & Hh1); try done.
  assert (txs w1 = txs w) as Htx.
  { change w1 with (Ok tt, w1).2. rewrite <- Hu.
    by rewrite keeps_update_db_hat. }
  assert (chain w1 = chain w) as Hch.
  { change w1 with (Ok tt, w1).2. rewrite <- Hu.
    by rewrite keeps_update_db_hat. }
  assert (check_hat T w = (Ok tt, w1)) as Hhat.
  { rewrite (check_hat_from_guards w number w1
               (mkHat (Some a) (Some (Z.of_N e)) (Some false))) by done.
    unfold get_address, done_truthy, done_is_False, get_eta. simpl.
    rewrite (proj2 (String.eqb_neq _ _) Hz). simpl.
    rewrite (bind_Ok _ _ w1 true w1) by (apply read_run; by rewrite Hch).
    simpl. assert ((Z.of_N e =? 0) = false) as -> by (apply Z.eqb_neq; lia).
    done. }
  rewrite process_block_run, Hlt, Hhat.
  rewrite (check_eta_due w1 (mkHat (Some a) (Some (Z.of_N e)) (Some false))
             a number b)
    by first [done | by rewrite Hch | unfold get_eta; simpl; lia].
  set (w2 := add_event _ w1).
  rewrite (bind_Ok _ _ w2 true w2) by (apply read_run; simpl; by rewrite Hch).
  rewrite (bind_Ok _ _ w2 tt (add_event (LogInfo (Casting a)) w2)) by done.
  split.
  - rewrite keeps_after.
    + rewrite txs_transact. simpl. by rewrite Htx.
    + intros [[[]]|];
        first [by apply keeps_update_db_hat_done | apply keeps_ret].
  - rewrite keeps_after.
    + rewrite (keeps_transact cached_address (Cast a)) by done.
      change (cached_address w1 = Some a).
      unfold cached_address. by rewrite Hh1.
    + intros [[[]]|];
        first [apply keeps_cached_address_done | apply keeps_ret].
Qed.

(** One callback on a store whose leader record is the one of the null
    leader, while the node reports the null leader. *)
Lemma idle_callback w t d1 c :
  db w = Some t -> t !! 1 = Some d1 ->
  cached_hat w = Some null_record ->
  reports_no_leader c ->
  exists w2 t2 d2,
    process_block T (set_chain c w) = (Ok tt, w2) /\
    txs w2 = txs w /\ db w2 = Some t2 /\ t2 !! 1 = Some d2 /\
    cached_hat w2 = Some null_record.
Proof.
  intros Ht H1 Hh [[number Hn] Ha].
  rewrite process_block_run.
  destruct (_ <=? _); [by exists (set_terminated (set_chain c w)), t, d1|].
  set (w' := set_chain c w).
  set (w0 := add_event (LogInfo (CheckingHat number)) w').
  set (t1 := <[1 := TinyDB.merge_fields (block_fields number) d1]> t).
  assert (update_db_hat number w0 = (Ok tt, set_db t1 w0)) as Hu.
  { unfold update_db_hat.
    rewrite (bind_Ok _ _ w0 zero_address w0) by by apply read_run.
    rewrite (bind_Ok _ _ w0 null_record w0) by by apply db_hat_cached.
    rewrite bool_decide_eq_true_2 by done. simpl.
    rewrite (bind_Ok _ _ w0 tt w0) by done.
    by rewrite (db_update_run _ 1 w0 t d1). }
  assert (cached_hat (set_db t1 w0) = Some null_record) as Hh1.
  { unfold cached_hat, TinyDB.get in *. simpl. rewrite Ht in Hh.
    subst t1. by rewrite lookup_insert_ne. }
  assert (check_hat T w' = (Ok tt, set_db t1 w0)) as ->
    by by rewrite (check_hat_from_guards w' number (set_db t1 w0) null_record).
  assert (check_eta T (set_db t1 w0) = (Ok tt, set_db t1 w0)) as ->.
  { unfold check_eta. by rewrite (bind_Ok _ _ _ _ _ (db_hat_cached _ _ Hh1)). }
  exists (set_db t1 w0), t1, (TinyDB.merge_fields (block_fields number) d1).
  split; [done|]. split; [done|]. split; [done|]. split; [|done].
  subst t1. by rewrite lookup_insert.
Qed.

Lemma idle_callbacks cs w t d1 :
  db w = Some t -> t !! 1 = Some d1 ->
  cached_hat w = Some null_record ->
  Forall reports_no_leader cs ->
  exists t2 d2,
    txs (process_blocks T cs w) = txs w /\
    db (process_blocks T cs w) = Some t2 /\ t2 !! 1 = Some d2 /\
    cached_hat (process_blocks T cs w) = Some null_record.
Proof.
  intros Ht H1 Hh Hcs. revert w t d1 Ht H1 Hh.
  induction Hcs as [|c cs Hc _ IH]; intros w t d1 Ht H1 Hh.
  - by exists t, d1.
  - destruct (idle_callback w t d1 c Ht H1 Hh Hc)
      as (w2 & t2 & d2 & Hrun & Htx & Ht2 & H12 & Hh2).
    simpl. rewrite Hrun. simpl.
    destruct (IH w2 t2 d2 Ht2 H12 Hh2) as (t3 & d3 & Htx3 & ?).
    exists t3, d3. split; [congruence|done].
Qed.

(** X18. After a bootstrap that found no leader, the callbacks stay idle for
    as long as the node reports the null address: after any number of
    them, the next one returns, has submitted nothing and leaves the record
    as the bootstrap stored it. *)
Theorem null_bootstrap_idle w number :
  isfile (fs w) && access_R_OK (fs w) = false ->
  tinydb_open (fs w) = Ok ∅ ->
  blockNumber (chain w) = Ok number ->
  get_hat (chain w) = Ok zero_address ->
  exists status w',
    create w = (Ok status, w') /\
    forall cs c,
      Forall reports_no_leader cs -> reports_no_leader c ->
      (process_block T (set_chain c (process_blocks T cs w'))).1 = Ok tt /\
      txs (process_block T (set_chain c (process_blocks T cs w'))).2
      = txs w /\
      cached_hat (process_block T (set_chain c (process_blocks T cs w'))).2
      = Some null_record.
Proof.
  intros Hf Ht Hn Ha.
  assert (create w
          = (Ok "Either file is missing or is not readable, creating simple database"%string,
             set_db (<[2 := hat_fields null_record]>
                       {[ 1 := block_fields number ]})
                    (add_event (Stdout (InitHat zero_address 0 true)) w)))
    as Hcreate.
  { unfold create. rewrite (bind_Ok _ _ w (fs w) w) by done.
    rewrite Hf. cbv zeta.
    rewrite (bind_Ok _ _ w ∅ w) by (unfold lift; by rewrite Ht).
    rewrite (bind_Ok _ _ w tt (set_db ∅ w)) by done.
    rewrite (bind_Ok _ _ (set_db ∅ w) number (set_db ∅ w))
      by (apply read_run; exact Hn).
    set (w1 := set_db (TinyDB.insert (block_fields number) ∅) (set_db ∅ w)).
    rewrite (bind_Ok _ _ (set_db ∅ w) tt w1) by done.
    rewrite (bind_Ok _ _ w1 zero_address w1) by (apply read_run; exact Ha).
    simpl. unfold db_insert, bind, the_db, put_db, print, ret. simpl.
    by rewrite insert_first, insert_second. }
  rewrite Hcreate. eexists _, _. split; [reflexivity|].
  intros cs c Hcs Hc.
  set (w' := set_db _ _).
  destruct (idle_callbacks cs w' _ (block_fields number) eq_refl)
    as (t2 & d2 & Htx & Ht2 & H12 & Hh2); [done|done|done|].
  destruct (idle_callback (process_blocks T cs w') t2 d2 c Ht2 H12 Hh2 Hc)
    as (w3 & t3 & d3 & -> & Htx3 & _ & _ & Hh3).
  split; [done|]. split; [|done]. simpl. by rewrite Htx3, Htx.
Qed.

(** X19. A restart does not start finished work again: on a store file that
    is there and readable, [create] takes the store as TinyDB opens it,
    reads nothing from the node and logs nothing; with the leader record
    done and the leader unchanged, the next callback submits nothing and
    leaves the record as it is. *)
Theorem restart_keeps_done w t d1 d2 h a number :
  isfile (fs w) = true -> access_R_OK (fs w) = true ->
  tinydb_open (fs w) = Ok t ->
  t !! 1 = Some d1 -> t !! 2 = Some d2 -> hat d2 = Some h ->
  address h = Some a -> done h = Some true ->
  forall c,
    blockNumber c = Ok number -> get_hat c = Ok a ->
    create w
    = (Ok "Simple database exists and is readable"%string, set_db t w) /\
    create (set_chain c w)
    = (Ok "Simple database exists and is readable"%string,
       set_db t (set_chain c w)) /\
    txs (process_block T (set_db t (set_chain c w))).2 = txs w /\
    cached_hat (process_block T (set_db t (set_chain c w))).2 = Some h.
Proof.
  intros Hi Hr Ht H1 H2 Hh Ha Hd c Hn Hc.
  assert (forall w0, fs w0 = fs w ->
            create w0
            = (Ok "Simple database exists and is readable"%string,
               set_db t w0)) as Hcreate.
  { intros w0 Hfs. unfold create. rewrite (bind_Ok _ _ w0 (fs w0) w0) by done.
    rewrite Hfs, Hi, Hr. simpl.
    by rewrite (bind_Ok _ _ w0 t w0) by (unfold lift; by rewrite Ht). }
  split; [by apply Hcreate|]. split; [by apply Hcreate|].
  set (w' := set_db t (set_chain c w)).
  assert (cached_hat w' = Some h) as Hh'.
  { unfold cached_hat, TinyDB.get. simpl. by rewrite H2. }
  set (w0 := add_event (LogInfo (CheckingHat number)) w').
  destruct (update_db_hat_same number w0 t d1 h a)
    as (w1 & Hu & Hh1); try done.
  assert (txs w1 = txs w) as Htx.
  { change w1 with (Ok tt, w1).2. rewrite <- Hu.
    by rewrite keeps_update_db_hat. }
  assert (check_hat T w' = (Ok tt, w1)) as Hhat.
  { rewrite (check_hat_from_guards w' number w1 h) by done.
    by rewrite guards_stop by by right. }
  assert (check_eta T w1 = (Ok tt, w1)) as Heta.
  { unfold check_eta. rewrite (bind_Ok _ _ _ _ _ (db_hat_cached _ _ Hh1)).
    by rewrite guards_stop by by right. }
  rewrite process_block_run.
  destruct (_ <=? _); [done|].
  by rewrite Hhat, Heta.
Qed.

End Proofs.

(** * The scenarios

    The statements above at concrete worlds, and the runs on which the code
    departs from its specification. *)

Lemma spell_A_not_null : spell_A <> zero_address.
Proof. by intros [=]. Qed.

Lemma steady_chain_inv leader number now code e :
  chain_inv (steady_chain leader number now code e false).
Proof. by intros a d _ [= <-]. Qed.

Lemma check_hat_adopts_chain_eta_witness :
  exists w',
    check_hat mined_submitter race_world = (Ok tt, w') /\
    txs w' = [] /\
    cached_hat w' = Some (mkHat (Some spell_A) (Some 500) (Some false)).
Proof.
  apply (check_hat_adopts_chain_eta mined_submitter race_world 7
           (update_db_hat 7 (add_event (LogInfo (CheckingHat 7)) race_world)).2
           (mkHat (Some spell_A) (Some 0) (Some false)) spell_A 500);
    first [by vm_compute | exact spell_A_not_null].
Defined.


Lemma check_eta_marks_done_witness :
  exists w' h',
    check_eta mined_submitter (due_world 100) = (Ok tt, w') /\
    txs w' = [Cast spell_A] /\
    cached_hat w' = Some h' /\
    h' = mkHat (Some spell_A) (Some 100) (Some true) /\
    (done h' = Some true <->
     Some (mkReceipt true) = None \/
     exists rc, Some (mkReceipt true) = Some rc /\ successful rc = true).
Proof.
  apply (check_eta_marks_done mined_submitter (due_world 100)
           (mkHat (Some spell_A) (Some 100) (Some false)) spell_A 7
           (mkBlock 100) (Some (mkReceipt true)) (chain (due_world 100)));
    first [by vm_compute | exact spell_A_not_null].
Defined.

(** C4 fails on the code: the action is due, the leader address has no
    code, and the eta monitor raises [AttributeError] instead of stopping;
    it has submitted nothing. *)
Theorem check_eta_no_code_raises :
  check_eta mined_submitter codeless_world
  = (Raise AttributeError,
     add_event (LogInfo (CheckingScheduled 7)) codeless_world) /\
  txs (check_eta mined_submitter codeless_world).2 = [].
Proof.
  assert (check_eta mined_submitter codeless_world
          = (Raise AttributeError,
             add_event (LogInfo (CheckingScheduled 7)) codeless_world)) as ->.
  { apply (check_eta_no_code mined_submitter codeless_world
             (mkHat (Some spell_A) (Some 100) (Some false)) spell_A 7
             (mkBlock 100));
      first [by vm_compute | exact spell_A_not_null]. }
  done.
Qed.

Lemma leader_reconciled_witness :
  exists number w1 h1,
    blockNumber (chain changed_world) = Ok number /\
    update_db_hat number (add_event (LogInfo (CheckingHat number)) changed_world)
    = (Ok tt, w1) /\
    cached_hat w1 = Some h1 /\
    (Some spell_A = Some spell_B /\
     h1 = mkHat (Some spell_A) (Some 0) (Some false) \/
     Some spell_A <> Some spell_B /\
     exists e d, spell_eta (chain changed_world) spell_B = Ok e /\
                 spell_done (chain changed_world) spell_B = Ok d /\
                 h1 = mkHat (Some spell_B) (Some (Z.of_N e)) (Some d)) /\
    cached_address (process_block mined_submitter changed_world).2
    = Some spell_B.
Proof.
  apply (leader_reconciled mined_submitter changed_world
           (process_block mined_submitter changed_world).2 spell_B
           (mkHat (Some spell_A) (Some 0) (Some false)));
    by vm_compute.
Defined.

(** C5 fails on the code: the leader changes from A to B within the block,
    and the cached eta after the block is the 1000 that the node reports for
    B, not 0. *)
Lemma leader_change_keeps_chain_eta :
  cached_hat changed_world
  = Some (mkHat (Some spell_A) (Some 0) (Some false)) /\
  get_hat (chain changed_world) = Ok spell_B /\
  (process_block mined_submitter changed_world).1 = Ok tt /\
  cached_hat (process_block mined_submitter changed_world).2
  = Some (mkHat (Some spell_B) (Some 1000) (Some false)).
Proof. by vm_compute. Qed.

Lemma scheduling_node_untorn c0 : untorn c0 scheduling_node.
Proof. by intros a d _ [= <-]. Qed.

Lemma stored_records_inv_witness :
  stored_inv record_inv
    (process_block_live mined_submitter scheduling_node
       (create null_boot_world).2).2.
Proof.
  apply (stored_records_inv mined_submitter).
  apply reach_block; [|apply scheduling_node_untorn].
  apply (reach_bootstrap mined_submitter null_boot_world still).
  - by vm_compute.
  - by vm_compute.
  - apply steady_chain_inv.
Defined.

(** The run of the witness: the bootstrap stores the record of the null
    leader; in the callback leader A is stored unscheduled, and the eta
    that another account sets meanwhile is adopted. *)
Lemma stored_records_inv_run :
  cached_hat (create null_boot_world).2 = Some null_record /\
  cached_hat
    (process_block_live mined_submitter scheduling_node
       (create null_boot_world).2).2
  = Some (mkHat (Some spell_A) (Some 500) (Some false)) /\
  txs
    (process_block_live mined_submitter scheduling_node
       (create null_boot_world).2).2
  = [].
Proof. by vm_compute. Qed.

(** C6 fails on the code: a bootstrap while the leader is the null address
    stores eta 0 together with done true. *)
Lemma null_bootstrap_stores_done :
  cached_hat (create null_boot_world).2 = Some null_record /\
  ~ stored_inv hat_inv (create null_boot_world).2.
Proof.
  split; [by vm_compute|].
  intros H.
  specialize (H _ eq_refl 2 _ null_record eq_refl eq_refl eq_refl).
  discriminate H.
Qed.

(** It fails as well when the two reads of a fresh record are torn: leader
    B is unscheduled when its eta is read and has been scheduled and cast
    when its done flag is read. No state of the node reports an unscheduled
    action done, and the record stored has eta 0 and done true. *)
Lemma torn_read_stores_done :
  chain_inv appearing_chain /\ chain_inv cast_chain /\
  ~ untorn (chain torn_world) torn_node /\
  (update_db_hat_live torn_node 7 torn_world).1 = Ok tt /\
  cached_hat (update_db_hat_live torn_node 7 torn_world).2
  = Some (mkHat (Some spell_B) (Some 0) (Some true)) /\
  ~ record_inv (mkHat (Some spell_B) (Some 0) (Some true)).
Proof.
  split; [by intros a d _ [= <-]|]. split; [by intros a d [=]|].
  split.
  { intros H. by specialize (H spell_B true eq_refl eq_refl). }
  split; [by vm_compute|]. split; [by vm_compute|].
  intros [H|[=]]. by specialize (H eq_refl).
Qed.

Lemma guards_stop_both_monitors_witness :
  check_hat mined_submitter done_world
  = (Ok tt, (update_db_hat 7 (add_event (LogInfo (CheckingHat 7)) done_world)).2) /\
  check_eta mined_submitter
    (update_db_hat 7 (add_event (LogInfo (CheckingHat 7)) done_world)).2
  = (Ok tt, (update_db_hat 7 (add_event (LogInfo (CheckingHat 7)) done_world)).2) /\
  txs (update_db_hat 7 (add_event (LogInfo (CheckingHat 7)) done_world)).2
  = txs done_world /\
  txs (process_block mined_submitter done_world).2 = txs done_world.
Proof.
  apply (guards_stop_both_monitors mined_submitter done_world 7
           (update_db_hat 7 (add_event (LogInfo (CheckingHat 7)) done_world)).2
           (mkHat (Some spell_A) (Some 100) (Some true)));
    first [by vm_compute | by right].
Defined.

Lemma check_eta_due_time_witness :
  (check_eta mined_submitter (due_world 99)).1 = Ok tt /\
  txs (check_eta mined_submitter (due_world 99)).2 = [] /\
  txs (check_eta mined_submitter (due_world 100)).2 = [Cast spell_A].
Proof.
  apply (check_eta_due_time mined_submitter (due_world 99) (due_world 100)
           spell_A 100);
    exists (mkHat (Some spell_A) (Some 100) (Some false)), 7;
    repeat split; first [by vm_compute | exact spell_A_not_null].
Defined.

Lemma process_block_error_uncounted_witness :
  process_block mined_submitter last_chance_world
  = (Raise RPCError, add_event (LogInfo (CheckingHat 7)) last_chance_world) /\
  errors (add_event (LogInfo (CheckingHat 7)) last_chance_world)
  = errors last_chance_world /\
  max_errors (add_event (LogInfo (CheckingHat 7)) last_chance_world)
  = max_errors last_chance_world /\
  forall c,
    process_block mined_submitter
      (set_chain c (add_event (LogInfo (CheckingHat 7)) last_chance_world))
    = (check_hat mined_submitter ;; check_eta mined_submitter)
        (set_chain c (add_event (LogInfo (CheckingHat 7)) last_chance_world)) /\
    terminated
      (process_block mined_submitter
         (set_chain c
            (add_event (LogInfo (CheckingHat 7)) last_chance_world))).2
    = terminated last_chance_world.
Proof.
  apply (process_block_error_uncounted mined_submitter last_chance_world
           RPCError (add_event (LogInfo (CheckingHat 7)) last_chance_world));
    [by vm_compute|left; by vm_compute].
Defined.

Lemma check_eta_block_none_witness :
  check_eta mined_submitter blockless_world
  = (Ok tt, add_event (LogWarning (EtaBlockIsNone 7)) blockless_world) /\
  txs (check_eta mined_submitter blockless_world).2 = [] /\
  db (check_eta mined_submitter blockless_world).2 = db blockless_world /\
  log (check_eta mined_submitter blockless_world).2
  = [LogWarning (EtaBlockIsNone 7)].
Proof.
  apply (check_eta_block_none mined_submitter blockless_world
           (mkHat (Some spell_A) (Some 100) (Some false)) 7);
    first [by vm_compute | exact spell_A_not_null].
Defined.

(** ** More scenarios *)

Lemma create_bootstrap_witness :
  exists w',
    create boot_world
    = (Ok "Either file is missing or is not readable, creating simple database"%string,
       w') /\
    checkpoint w' = Some 7 /\
    cached_hat w' = Some (mkHat (Some spell_A) (Some 0) (Some false)) /\
    txs w' = [] /\
    log w' = [Stdout (InitHat spell_A 0 false)].
Proof. by apply (create_bootstrap boot_world 7 spell_A 0 false). Defined.

Lemma create_interrupted_witness :
  exists w',
    create (fresh (hatless_chain 7)) = (Raise RPCError, w') /\
    db w' = Some {[ 1 := block_fields 7 ]} /\
    cached_hat w' = None /\
    check_eta mined_submitter w' = (Raise TypeError, w') /\
    (forall c, (check_hat mined_submitter (set_chain c w')).1 <> Ok tt).
Proof.
  by apply (create_interrupted mined_submitter (fresh (hatless_chain 7)) 7
              RPCError).
Defined.

Lemma process_block_checkpoint_witness :
  checkpoint (check_hat mined_submitter unscheduled_world).2 = Some 7 /\
  checkpoint (process_block mined_submitter unscheduled_world).2 = Some 7.
Proof.
  apply (process_block_checkpoint mined_submitter unscheduled_world 7
           (update_db_hat 7
              (add_event (LogInfo (CheckingHat 7)) unscheduled_world)).2);
    by vm_compute.
Defined.

Lemma update_db_hat_idempotent_witness :
  update_db_hat 7 (update_db_hat 7 changed_world).2
  = (Ok tt, (update_db_hat 7 changed_world).2).
Proof.
  apply (update_db_hat_idempotent 7 changed_world). by vm_compute.
Defined.

Lemma update_db_hat_no_checkpoint_witness :
  exists w',
    update_db_hat 7 checkpointless_world = (Raise KeyError, w') /\
    cached_hat w' = Some (mkHat (Some spell_B) (Some 40) (Some false)) /\
    checkpoint w' = None.
Proof.
  apply (update_db_hat_no_checkpoint 7 checkpointless_world
           {[ 2 := hat_fields (mkHat (Some spell_A) (Some 0) (Some false)) ]}
           (mkHat (Some spell_A) (Some 0) (Some false)) spell_B 40 false);
    first [by vm_compute | by intros [=]].
Defined.

Lemma partial_updates_commute_witness :
  exists w',
    (update_db_hat_eat 200 ;; update_db_hat_done true) (due_world 100)
    = (Ok tt, w') /\
    (update_db_hat_done true ;; update_db_hat_eat 200) (due_world 100)
    = (Ok tt, w') /\
    cached_hat w' = Some (mkHat (Some spell_A) (Some 200) (Some true)) /\
    checkpoint w' = checkpoint (due_world 100).
Proof.
  by apply (partial_updates_commute (due_world 100)
              (mkHat (Some spell_A) (Some 100) (Some false)) 200 true).
Defined.

Lemma leader_record_missing_witness :
  update_db_hat_eat 200 leaderless_world = (Raise TypeError, leaderless_world) /\
  update_db_hat_done true leaderless_world
  = (Raise TypeError, leaderless_world) /\
  check_eta mined_submitter leaderless_world
  = (Raise TypeError, leaderless_world).
Proof.
  by apply (leader_record_missing mined_submitter leaderless_world 200 true).
Defined.

Lemma check_hat_schedule_outcome_witness :
  txs (check_hat (scheduling_submitter 500) unscheduled_world).2
  = [Schedule spell_A] /\
  (check_hat (scheduling_submitter 500) unscheduled_world).1 = Ok tt /\
  cached_hat (check_hat (scheduling_submitter 500) unscheduled_world).2
  = Some (mkHat (Some spell_A) (Some 500) (Some false)).
Proof.
  apply (check_hat_schedule_outcome (scheduling_submitter 500)
           unscheduled_world 7
           (update_db_hat 7
              (add_event (LogInfo (CheckingHat 7)) unscheduled_world)).2
           (mkHat (Some spell_A) (Some 0) (Some false)) spell_A
           (Ok (Some (mkReceipt false)))
           (scheduling_submitter 500 (Schedule spell_A)
              (chain unscheduled_world)).2);
    first [by vm_compute | exact spell_A_not_null].
Defined.

Lemma check_hat_not_a_contract_witness :
  check_hat mined_submitter account_world
  = (Ok tt,
     add_event
       (LogInfo (NotAContract (mkHat (Some spell_A) (Some 0) (Some false))))
       (update_db_hat 7
          (add_event (LogInfo (CheckingHat 7)) account_world)).2) /\
  txs (check_hat mined_submitter account_world).2 = [] /\
  db (check_hat mined_submitter account_world).2
  = db (update_db_hat 7
          (add_event (LogInfo (CheckingHat 7)) account_world)).2.
Proof.
  apply (check_hat_not_a_contract mined_submitter account_world 7
           (update_db_hat 7
              (add_event (LogInfo (CheckingHat 7)) account_world)).2
           (mkHat (Some spell_A) (Some 0) (Some false)));
    first [by vm_compute | exact spell_A_not_null].
Defined.

Lemma check_eta_casts_once_witness :
  exists w',
    check_eta mined_submitter (due_world 100) = (Ok tt, w') /\
    forall c',
      check_eta mined_submitter (set_chain c' w') = (Ok tt, set_chain c' w').
Proof.
  apply (check_eta_casts_once mined_submitter (due_world 100)
           (mkHat (Some spell_A) (Some 100) (Some false)) spell_A 7
           (mkBlock 100) (Some (mkReceipt true)) (chain (due_world 100)));
    first [by vm_compute | exact spell_A_not_null].
Defined.

Lemma check_eta_retries_witness :
  exists w',
    check_eta reverting_submitter (due_world 100) = (Ok tt, w') /\
    cached_hat w' = Some (mkHat (Some spell_A) (Some 100) (Some false)) /\
    txs (check_eta reverting_submitter w').2 = [Cast spell_A; Cast spell_A].
Proof.
  apply (check_eta_retries reverting_submitter (due_world 100)
           (mkHat (Some spell_A) (Some 100) (Some false)) spell_A 7
           (mkBlock 100) (chain (due_world 100)) 7 (mkBlock 100));
    first [by vm_compute | exact spell_A_not_null].
Defined.

Lemma check_eta_submission_raises_witness :
  (check_eta failing_submitter (due_world 100)).1 = Raise RPCError /\
  txs (check_eta failing_submitter (due_world 100)).2 = [Cast spell_A] /\
  cached_hat (check_eta failing_submitter (due_world 100)).2
  = Some (mkHat (Some spell_A) (Some 100) (Some false)).
Proof.
  apply (check_eta_submission_raises failing_submitter (due_world 100)
           (mkHat (Some spell_A) (Some 100) (Some false)) spell_A 7
           (mkBlock 100) RPCError (chain (due_world 100)));
    first [by vm_compute | exact spell_A_not_null].
Defined.

Lemma error_budget_never_spent_witness :
  errors (process_block failing_submitter
            (set_chain down_chain
               (process_block failing_submitter unscheduled_world).2)).2
  = 0 /\
  max_errors (process_block failing_submitter
                (set_chain down_chain
                   (process_block failing_submitter unscheduled_world).2)).2
  = 100 /\
  ((100 <=? 0) = false ->
   terminated (process_block failing_submitter
                 (set_chain down_chain
                    (process_block failing_submitter unscheduled_world).2)).2
   = false).
Proof.
  apply (error_budget_never_spent failing_submitter unscheduled_world).
  apply later_block, later_chain, later_block, later_now.
Defined.

Lemma leader_change_cast_same_block_witness :
  txs (process_block mined_submitter changed_due_world).2 = [Cast spell_B] /\
  cached_address (process_block mined_submitter changed_due_world).2
  = Some spell_B.
Proof.
  apply (leader_change_cast_same_block mined_submitter changed_due_world
           {[ 1 := block_fields 6;
              2 := hat_fields (mkHat (Some spell_A) (Some 0) (Some false)) ]}
           (block_fields 6) (mkHat (Some spell_A) (Some 0) (Some false))
           7 (mkBlock 50) spell_B 40);
    first [by vm_compute | by intros [=]].
Defined.

Lemma leaderless_chain_reports number :
  reports_no_leader (leaderless_chain number).
Proof. split; [by exists number|done]. Qed.

Lemma null_bootstrap_idle_witness :
  (process_block mined_submitter
     (set_chain (leaderless_chain 10)
        (process_blocks mined_submitter
           [leaderless_chain 8; leaderless_chain 9]
           (create null_boot_world).2))).1 = Ok tt /\
  txs (process_block mined_submitter
         (set_chain (leaderless_chain 10)
            (process_blocks mined_submitter
               [leaderless_chain 8; leaderless_chain 9]
               (create null_boot_world).2))).2 = [] /\
  cached_hat (process_block mined_submitter
                (set_chain (leaderless_chain 10)
                   (process_blocks mined_submitter
                      [leaderless_chain 8; leaderless_chain 9]
                      (create null_boot_world).2))).2
  = Some null_record.
Proof.
  destruct (null_bootstrap_idle mined_submitter null_boot_world 7)
    as (status & w' & Hcreate & Hidle); [by vm_compute..|].
  assert (w' = (create null_boot_world).2) as -> by by rewrite Hcreate.
  apply Hidle; [|apply leaderless_chain_reports].
  repeat constructor; apply leaderless_chain_reports.
Defined.

Lemma restart_keeps_done_witness :
  create restart_world
  = (Ok "Simple database exists and is readable"%string,
     set_db {[ 1 := block_fields 6;
               2 := hat_fields (mkHat (Some spell_A) (Some 100) (Some true)) ]}
            restart_world) /\
  create (set_chain (steady_chain spell_A 8 200 true 100 true) restart_world)
  = (Ok "Simple database exists and is readable"%string,
     set_db {[ 1 := block_fields 6;
               2 := hat_fields (mkHat (Some spell_A) (Some 100) (Some true)) ]}
            (set_chain (steady_chain spell_A 8 200 true 100 true)
               restart_world)) /\
  txs (process_block mined_submitter
         (set_db {[ 1 := block_fields 6;
                    2 := hat_fields
                           (mkHat (Some spell_A) (Some 100) (Some true)) ]}
            (set_chain (steady_chain spell_A 8 200 true 100 true)
               restart_world))).2
  = [] /\
  cached_hat
    (process_block mined_submitter
       (set_db {[ 1 := block_fields 6;
                  2 := hat_fields
                         (mkHat (Some spell_A) (Some 100) (Some true)) ]}
          (set_chain (steady_chain spell_A 8 200 true 100 true)
             restart_world))).2
  = Some (mkHat (Some spell_A) (Some 100) (Some true)).
Proof.
  by apply (restart_keeps_done mined_submitter restart_world
              {[ 1 := block_fields 6;
                 2 := hat_fields (mkHat (Some spell_A) (Some 100) (Some true)) ]}
              (block_fields 6)
              (hat_fields (mkHat (Some spell_A) (Some 100) (Some true)))
              (mkHat (Some spell_A) (Some 100) (Some true)) spell_A 8).
Defined.
